(** * ClickHouse [Time] and [Time64] columns (lib/column/time.go, time64.go)

    A shallow embedding of the two time-of-day column types of the driver:
    the type descriptor parser ([parse]), the write path ([Append],
    [AppendRow], [parseTime]) and the read path ([row], [ScanRow]).

    Go values are modelled as follows.
    - [int64] and [int] values are integers of [Z]; Go's [/] and [%] truncate
      toward zero and are [Z.quot] and [Z.rem].  No arithmetic of the two
      source files can leave the 64-bit range (the operations are divisions,
      remainders and products of remainders with small constants), so no
      wrap-around is written.
    - [string] is [string]; [any] is the closed sum [HostValue] of the
      dynamic types the type switches distinguish.
    - A method with a pointer receiver takes the column and returns the
      column after the call together with an [outcome]: a result, a returned
      [error], or a run-time panic. *)

From Stdlib Require Import ZArith List String Ascii Bool Lia.
Import ListNotations.

Open Scope string_scope.
Open Scope Z_scope.

(** ** Outcomes of a call *)

Inductive Error : Type :=
| UnsupportedColumnTypeError (t : string)
| ColumnConverterError (Op To From Hint : string)
| NumError (Func Num : string) (outOfRange : bool)
| LoadLocationError (zone : string)
| Errorf (msg : string).

Inductive outcome (A : Type) : Type :=
| Ok (a : A)
| Err (e : Error)
| Panic.

Arguments Ok {A} a.
Arguments Err {A} e.
Arguments Panic {A}.

Definition isErr {A : Type} (o : outcome A) : bool :=
  match o with Err _ => true | _ => false end.

Definition isOk {A : Type} (o : outcome A) : bool :=
  match o with Ok _ => true | _ => false end.

(** ** The functions of Go's [strings] package that the parsers call *)

Module Strings.

Fixpoint HasPrefix (s prefix : string) : bool :=
  match prefix, s with
  | EmptyString, _ => true
  | String p prefix', String c s' => Ascii.eqb c p && HasPrefix s' prefix'
  | String _ _, EmptyString => false
  end.

Fixpoint dropPrefix (s prefix : string) : string :=
  match prefix, s with
  | String _ prefix', String _ s' => dropPrefix s' prefix'
  | _, _ => s
  end.

Definition TrimPrefix (s prefix : string) : string :=
  if HasPrefix s prefix then dropPrefix s prefix else s.

Definition HasSuffix (s suffix : string) : bool :=
  (length suffix <=? length s)%nat
  && String.eqb (substring (length s - length suffix) (length suffix) s) suffix.

Definition TrimSuffix (s suffix : string) : string :=
  if HasSuffix s suffix then substring 0 (length s - length suffix) s else s.

Fixpoint ContainsChar (s : string) (sep : ascii) : bool :=
  match s with
  | EmptyString => false
  | String c s' => Ascii.eqb c sep || ContainsChar s' sep
  end.

(** [strings.Split(s, sep)] for a separator of one byte: the pieces between
    the occurrences of [sep], one more than there are occurrences. *)
Fixpoint SplitChar (s : string) (sep : ascii) : list string :=
  match s with
  | EmptyString => [EmptyString]
  | String c s' =>
      if Ascii.eqb c sep then EmptyString :: SplitChar s' sep
      else match SplitChar s' sep with
           | piece :: rest => String c piece :: rest
           | [] => [String c EmptyString]
           end
  end.

End Strings.

(** ** [strconv.ParseInt(s, 10, bitSize)] *)

Module Strconv.

Definition isDigit (c : ascii) : bool :=
  (48 <=? nat_of_ascii c)%nat && (nat_of_ascii c <=? 57)%nat.

Definition digitVal (c : ascii) : Z := Z.of_nat (nat_of_ascii c) - 48.

(** The value of a string of decimal digits read left to right, [None]
    when a byte is not a digit. *)
Fixpoint digits (acc : Z) (s : string) : option Z :=
  match s with
  | EmptyString => Some acc
  | String c s' =>
      if isDigit c then digits (10 * acc + digitVal c) s' else None
  end.

Definition unsignedDigits (s : string) : option Z :=
  match s with
  | EmptyString => None
  | _ => digits 0 s
  end.

(** Base 10 is given explicitly, so neither a base prefix nor underscores
    are accepted: an optional sign and at least one digit.  A value outside
    the [bitSize]-bit signed range is a range error. *)
Definition ParseInt (s : string) (bitSize : Z) : outcome Z :=
  let '(neg, body) :=
    match s with
    | String "+" s' => (false, s')
    | String "-" s' => (true, s')
    | _ => (false, s)
    end in
  match unsignedDigits body with
  | None => Err (NumError "ParseInt" s false)
  | Some n =>
      let v := if neg then - n else n in
      if (- 2 ^ (bitSize - 1) <=? v) && (v <=? 2 ^ (bitSize - 1) - 1)
      then Ok v
      else Err (NumError "ParseInt" s true)
  end.

End Strconv.

(** ** Go's [time] package: instants, zones, clock fields *)

Module GoTime.

(** A [*time.Location], taken as one fixed offset from UTC in seconds.
    This is exact for UTC and for zones without transitions.  A zone with
    transitions has the offset in force on the day of the instant, which
    [time.Date] and [In] look up; the properties below that name a zone
    ask for offset zero, or leave the instant as the term [Date1970] builds
    without reading its clock. *)
Record Location : Type := mkLocation { zoneName : string; zoneOffset : Z }.

Definition UTC : Location := mkLocation "UTC" 0.

(** A [time.Time]: seconds and nanoseconds elapsed since
    1970-01-01T00:00:00Z, and the zone the clock fields are read in. *)
Record Instant : Type := mkInstant { unixSec : Z; nanos : Z; location : Location }.

(** [time.Time{}], January 1 of year 1, 00:00:00 UTC: 719162 days before
    the epoch day. *)
Definition zeroTime : Instant := mkInstant (- 62135596800) 0 UTC.

(** [time.Date(1970, 1, 1, hour, min, sec, nsec, loc)].  Values outside
    their usual ranges are normalised: nanoseconds carry into seconds,
    seconds into minutes, minutes into hours and hours into days, with
    floor division, so negative components reach back into 1969-12-31. *)
Definition Date1970 (hour min sec nsec : Z) (loc : Location) : Instant :=
  mkInstant (hour * 3600 + min * 60 + sec + nsec / 1000000000 - zoneOffset loc)
            (nsec mod 1000000000) loc.

(** Seconds elapsed since midnight on the wall clock of the instant's zone.
    Go computes its clock fields from an unsigned 64-bit count of seconds
    since a year far in the past, which wraps for instants more than some
    292 billion years before 1970 (Unix seconds below about -9.2233720287
    * 10^18).  The formula below is the one of every instant above that
    bound; the properties that read a clock field keep their instants
    within [-2^62, 2^62) seconds of the epoch. *)
Definition secondOfDay (t : Instant) : Z :=
  (unixSec t + zoneOffset (location t)) mod 86400.

Definition Hour (t : Instant) : Z := secondOfDay t / 3600.
Definition Minute (t : Instant) : Z := (secondOfDay t mod 3600) / 60.
Definition Second (t : Instant) : Z := secondOfDay t mod 60.
Definition Nanosecond (t : Instant) : Z := nanos t.

(** [t.In(loc)]: the same instant, read in another zone. *)
Definition In (t : Instant) (loc : Location) : Instant :=
  mkInstant (unixSec t) (nanos t) loc.

Definition digitChar (d : Z) : ascii := ascii_of_nat (48 + Z.to_nat d).

Definition pad2 (n : Z) : string :=
  String (digitChar (n / 10)) (String (digitChar (n mod 10)) EmptyString).

(** [t.Format("15:04:05")]. *)
Definition Format_15_04_05 (t : Instant) : string :=
  pad2 (Hour t) ++ ":" ++ pad2 (Minute t) ++ ":" ++ pad2 (Second t).

(** What the columns read from a successfully parsed time: [tv.Hour()],
    [tv.Minute()], [tv.Second()] and [tv.Nanosecond()]. *)
Record Clock : Type := mkClock { clkHour : Z; clkMin : Z; clkSec : Z; clkNsec : Z }.

(** *** A model of [time.Parse] for the layouts of the two [formats] lists *)

Inductive Chunk : Type :=
| Lit (s : string)
| StdHour          (* 15 *)
| StdHour12        (* 3 *)
| StdZeroMinute    (* 04 *)
| StdZeroSecond    (* 05 *)
| StdFracSecond9   (* .999, .999999, .999999999 *)
| StdPM            (* PM *)
| StdNumColonTZ.   (* -07:00 *)

(** The layouts, cut into the elements of the reference time they contain
    and the literal text between them. *)
Definition layoutChunks (layout : string) : option (list Chunk) :=
  let hms := [StdHour; Lit ":"; StdZeroMinute; Lit ":"; StdZeroSecond] in
  if String.eqb layout "15:04:05" then Some hms
  else if String.eqb layout "15:04" then Some [StdHour; Lit ":"; StdZeroMinute]
  else if String.eqb layout "15:04:05.999" then Some (hms ++ [StdFracSecond9])%list
  else if String.eqb layout "15:04:05.999999" then Some (hms ++ [StdFracSecond9])%list
  else if String.eqb layout "15:04:05.999999999" then Some (hms ++ [StdFracSecond9])%list
  else if String.eqb layout "3:04:05 PM" then
    Some [StdHour12; Lit ":"; StdZeroMinute; Lit ":"; StdZeroSecond; Lit " "; StdPM]
  else if String.eqb layout "3:04 PM" then
    Some [StdHour12; Lit ":"; StdZeroMinute; Lit " "; StdPM]
  else if String.eqb layout "15:04:05 -07:00" then
    Some (hms ++ [Lit " "; StdNumColonTZ])%list
  else if String.eqb layout "15:04:05.999 -07:00" then
    Some (hms ++ [StdFracSecond9; Lit " "; StdNumColonTZ])%list
  else if String.eqb layout "15:04:05.999999 -07:00" then
    Some (hms ++ [StdFracSecond9; Lit " "; StdNumColonTZ])%list
  else if String.eqb layout "15:04:05.999999999 -07:00" then
    Some (hms ++ [StdFracSecond9; Lit " "; StdNumColonTZ])%list
  else None.

Definition isDigitAt (s : string) (i : nat) : bool :=
  match String.get i s with
  | Some c => Strconv.isDigit c
  | None => false
  end.

Definition commaOrPeriod (c : ascii) : bool :=
  Ascii.eqb c "." || Ascii.eqb c ",".

(** [getnum]: one or two digits, exactly two when [fixed]. *)
Definition getnum (s : string) (fixed : bool) : option (Z * string) :=
  match s with
  | String a rest =>
      if Strconv.isDigit a then
        match rest with
        | String b rest' =>
            if Strconv.isDigit b
            then Some (Strconv.digitVal a * 10 + Strconv.digitVal b, rest')
            else if fixed then None else Some (Strconv.digitVal a, rest)
        | EmptyString => if fixed then None else Some (Strconv.digitVal a, rest)
        end
      else None
  | EmptyString => None
  end.

Fixpoint cutspace (s : string) : string :=
  match s with
  | String " " s' => cutspace s'
  | _ => s
  end.

(** [skip] for a literal of one byte: a space of the layout matches any run
    of spaces of the value, also an empty one at the end of the value. *)
Definition skipChar (value : string) (c : ascii) : option string :=
  if Ascii.eqb c " " then
    match value with
    | EmptyString => Some EmptyString
    | String v _ => if Ascii.eqb v " " then Some (cutspace value) else None
    end
  else
    match value with
    | String v value' => if Ascii.eqb v c then Some value' else None
    | EmptyString => None
    end.

Fixpoint spanDigits (s : string) : string * string :=
  match s with
  | String c s' =>
      if Strconv.isDigit c
      then let '(ds, rest) := spanDigits s' in (String c ds, rest)
      else (EmptyString, s)
  | EmptyString => (EmptyString, EmptyString)
  end.

Fixpoint scaleUp (n : Z) (k : nat) : Z :=
  match k with
  | O => n
  | S k' => scaleUp (n * 10) k'
  end.

(** [parseNanoseconds] on the digits that follow the separator: at most
    nine are read, and the number is scaled to nine places. *)
Definition parseNanoseconds (ds : string) : option Z :=
  let ds9 := substring 0 9 ds in
  match Strconv.digits 0 ds9 with
  | Some n => Some (scaleUp n (9 - length ds9))
  | None => None
  end.

(** A fractional second at the head of the value: a comma or a period
    followed by a digit.  All the digits are consumed. *)
Definition takeFraction (value : string) : option (Z * string) :=
  match value with
  | String sep after =>
      if commaOrPeriod sep && isDigitAt after 0 then
        let '(ds, rest) := spanDigits after in
        match parseNanoseconds ds with
        | Some ns => Some (ns, rest)
        | None => None
        end
      else None
  | EmptyString => None
  end.

Definition nextStdIsFraction (layout : list Chunk) : bool :=
  match filter (fun c => match c with Lit _ => false | _ => true end) layout with
  | StdFracSecond9 :: _ => true
  | _ => false
  end.

Record ParseState : Type :=
  mkParseState { pHour : Z; pMin : Z; pSec : Z; pNsec : Z; pmSet : bool; amSet : bool }.


Fixpoint skip (value prefix : string) : option string :=
  match prefix with
  | EmptyString => Some value
  | String c prefix' =>
      match skipChar value c with
      | Some value' => skip value' prefix'
      | None => None
      end
  end.

(** The zone offset [-07:00]: a sign, two digits, a colon, two digits. *)
Definition takeNumColonTZ (value : string) : option string :=
  match value with
  | String sign (String h1 (String h2 (String colon (String m1 (String m2 rest))))) =>
      if (Ascii.eqb sign "+" || Ascii.eqb sign "-")
         && Ascii.eqb colon ":"
         && Strconv.isDigit h1 && Strconv.isDigit h2
         && Strconv.isDigit m1 && Strconv.isDigit m2
         && (Strconv.digitVal h1 * 10 + Strconv.digitVal h2 <=? 24)
         && (Strconv.digitVal m1 * 10 + Strconv.digitVal m2 <=? 60)
      then Some rest else None
  | _ => None
  end.

(** The loop of [time.Parse] over the elements of the layout.  The offset
    of [-07:00] moves the instant and its zone together, so the clock
    fields of the result are the ones written in the value. *)
Fixpoint parseChunks (layout : list Chunk) (value : string) (st : ParseState)
  : option Clock :=
  match layout with
  | [] =>
      match value with
      | EmptyString =>
          let hour :=
            if pmSet st && (pHour st <? 12) then pHour st + 12
            else if amSet st && (pHour st =? 12) then 0
            else pHour st in
          Some (mkClock hour (pMin st) (pSec st) (pNsec st))
      | _ => None
      end
  | Lit s :: layout' =>
      match skip value s with
      | Some value' => parseChunks layout' value' st
      | None => None
      end
  | StdHour :: layout' =>
      match getnum value false with
      | Some (h, value') =>
          if h <? 24
          then parseChunks layout' value'
                 (mkParseState h (pMin st) (pSec st) (pNsec st) (pmSet st) (amSet st))
          else None
      | None => None
      end
  | StdHour12 :: layout' =>
      match getnum value false with
      | Some (h, value') =>
          if h <=? 12
          then parseChunks layout' value'
                 (mkParseState h (pMin st) (pSec st) (pNsec st) (pmSet st) (amSet st))
          else None
      | None => None
      end
  | StdZeroMinute :: layout' =>
      match getnum value true with
      | Some (m, value') =>
          if m <? 60
          then parseChunks layout' value'
                 (mkParseState (pHour st) m (pSec st) (pNsec st) (pmSet st) (amSet st))
          else None
      | None => None
      end
  | StdZeroSecond :: layout' =>
      match getnum value true with
      | Some (s, value') =>
          if s <? 60 then
            (* a fractional second of the value that the layout does not
               announce is read all the same *)
            match (if nextStdIsFraction layout' then None else takeFraction value') with
            | Some (ns, value'') =>
                parseChunks layout' value''
                  (mkParseState (pHour st) (pMin st) s ns (pmSet st) (amSet st))
            | None =>
                parseChunks layout' value'
                  (mkParseState (pHour st) (pMin st) s (pNsec st) (pmSet st) (amSet st))
            end
          else None
      | None => None
      end
  | StdFracSecond9 :: layout' =>
      match takeFraction value with
      | Some (ns, value') =>
          parseChunks layout' value'
            (mkParseState (pHour st) (pMin st) (pSec st) ns (pmSet st) (amSet st))
      | None => parseChunks layout' value st   (* fractional second omitted *)
      end
  | StdPM :: layout' =>
      match value with
      | String a (String b value') =>
          let p := String a (String b EmptyString) in
          if String.eqb p "PM" then
            parseChunks layout' value'
              (mkParseState (pHour st) (pMin st) (pSec st) (pNsec st) true (amSet st))
          else if String.eqb p "AM" then
            parseChunks layout' value'
              (mkParseState (pHour st) (pMin st) (pSec st) (pNsec st) (pmSet st) true)
          else None
      | _ => None
      end
  | StdNumColonTZ :: layout' =>
      match takeNumColonTZ value with
      | Some value' => parseChunks layout' value' st
      | None => None
      end
  end.

(** [time.Parse(layout, value)], as far as the columns look at its result:
    [None] is a returned error. *)
Definition Parse (layout value : string) : option Clock :=
  match layoutChunks layout with
  | Some chunks => parseChunks chunks value (mkParseState 0 0 0 0 false false)
  | None => None
  end.

End GoTime.

Import GoTime.

(** ** The external row store ([proto.ColTime], [proto.ColTime64]) *)

Module Proto.

(** Modelled from the spec: the fixed-width column of package [proto] that
    owns the row array is not part of this repository.  The spec gives its
    contract: the only value kept per row is the tick, "seconds since
    midnight" for [Time]; appending a calendar instant extracts its
    time-of-day components, and a row read back is an instant on the
    sentinel day 1970-01-01 whose time of day encodes the tick. *)
Record ColTime : Type := mkColTime { Data : list Z }.

Definition toTick (t : Instant) : Z := secondOfDay t.

Definition fromTick (tick : Z) : Instant := Date1970 0 0 tick 0 UTC.

Definition ColTime_Reset (c : ColTime) : ColTime := mkColTime [].

Definition ColTime_Rows (c : ColTime) : Z := Z.of_nat (List.length (Data c)).

Definition ColTime_Append (c : ColTime) (t : Instant) : ColTime :=
  mkColTime (Data c ++ [toTick t])%list.

(** [None] is the panic of an index out of range. *)
Definition ColTime_Row (c : ColTime) (i : Z) : option Instant :=
  if (0 <=? i) && (i <? ColTime_Rows c)
  then option_map fromTick (nth_error (Data c) (Z.to_nat i))
  else None.

(** Modelled from the spec: the 64-bit store keeps "sub-second units since
    midnight at the declared precision": with precision [p] between 0 and
    9 one tick is [10^(9-p)] nanoseconds.  The spec says nothing of a
    precision above 9; the formulas below are total but carry no meaning
    there. *)
Record ColTime64 : Type :=
  mkColTime64 { Data64 : list Z; Precision : Z; PrecisionSet : bool }.

Definition tickNanos (p : Z) : Z := 10 ^ (9 - p).

Definition nanoOfDay (t : Instant) : Z := secondOfDay t * 1000000000 + nanos t.

Definition toTick64 (p : Z) (t : Instant) : Z := nanoOfDay t / tickNanos p.

Definition fromTick64 (p : Z) (tick : Z) : Instant :=
  Date1970 0 0 0 (tick * tickNanos p) UTC.

Definition ColTime64_WithPrecision (c : ColTime64) (p : Z) : ColTime64 :=
  mkColTime64 (Data64 c) p true.

Definition ColTime64_Reset (c : ColTime64) : ColTime64 :=
  mkColTime64 [] (Precision c) (PrecisionSet c).

Definition ColTime64_Rows (c : ColTime64) : Z := Z.of_nat (List.length (Data64 c)).

Definition ColTime64_Append (c : ColTime64) (t : Instant) : ColTime64 :=
  mkColTime64 (Data64 c ++ [toTick64 (Precision c) t])%list
              (Precision c) (PrecisionSet c).

Definition ColTime64_Row (c : ColTime64) (i : Z) : option Instant :=
  if (0 <=? i) && (i <? ColTime64_Rows c)
  then option_map (fromTick64 (Precision c)) (nth_error (Data64 c) (Z.to_nat i))
  else None.

End Proto.

Import Proto.

(** ** Host values and destinations *)

(** [sql.NullTime]. *)
Record NullTime : Type := mkNullTime { ntTime : Instant; Valid : bool }.

(** The dynamic types an [any] handed to [Append] or [AppendRow] can have,
    as far as the type switches tell them apart.  A pointer is an [option],
    [None] being [nil].  [VValuer] is a value of a type named [ty] that
    implements [driver.Valuer] and is none of the other shapes, [value]
    being what its [Value()] returns; [VValuerErr] is such a value whose
    [Value()] returns an error.  [VOther] is a value of any other type,
    with the name [%T] prints. *)
Inductive HostValue : Type :=
| VInt64 (v : Z)
| VInt64Ptr (v : option Z)
| VTime (v : Instant)
| VTimePtr (v : option Instant)
| VNullTime (v : NullTime)
| VNullTimePtr (v : option NullTime)
| VNil
| VString (v : string)
| VInt64s (v : list Z)
| VInt64Ptrs (v : list (option Z))
| VTimes (v : list Instant)
| VTimePtrs (v : list (option Instant))
| VNullTimes (v : list NullTime)
| VNullTimePtrs (v : list (option NullTime))
| VStrings (v : list string)
| VValuer (ty : string) (value : HostValue)
| VValuerErr (ty : string)
| VOther (ty : string).

(** [fmt.Sprintf("%T", v)]. *)
Definition typeName (v : HostValue) : string :=
  match v with
  | VInt64 _ => "int64"
  | VInt64Ptr _ => "*int64"
  | VTime _ => "time.Time"
  | VTimePtr _ => "*time.Time"
  | VNullTime _ => "sql.NullTime"
  | VNullTimePtr _ => "*sql.NullTime"
  | VNil => "<nil>"
  | VString _ => "string"
  | VInt64s _ => "[]int64"
  | VInt64Ptrs _ => "[]*int64"
  | VTimes _ => "[]time.Time"
  | VTimePtrs _ => "[]*time.Time"
  | VNullTimes _ => "[]sql.NullTime"
  | VNullTimePtrs _ => "[]*sql.NullTime"
  | VStrings _ => "[]string"
  | VValuer ty _ => ty
  | VValuerErr ty => ty
  | VOther ty => ty
  end.

(** The destinations of [ScanRow]: non-nil pointers of the listed types, a
    value of a type [ty] that implements [sql.Scanner] ([scan] is its
    [Scan] method applied to an instant), or anything else. *)
Inductive Dest : Type :=
| DTime            (* *time.Time *)
| DTimePtr         (* **time.Time *)
| DInt64           (* *int64 *)
| DInt64Ptr        (* **int64 *)
| DNullTime        (* *sql.NullTime *)
| DString          (* *string *)
| DStringPtr       (* **string *)
| DScanner (ty : string) (scan : Instant -> option Error)
| DOther (ty : string).

Definition destTypeName (d : Dest) : string :=
  match d with
  | DTime => "*time.Time"
  | DTimePtr => "**time.Time"
  | DInt64 => "*int64"
  | DInt64Ptr => "**int64"
  | DNullTime => "*sql.NullTime"
  | DString => "*string"
  | DStringPtr => "**string"
  | DScanner ty _ => ty
  | DOther ty => ty
  end.

(** What a successful [ScanRow] has stored through the destination. *)
Inductive Written : Type :=
| WTime (t : Instant)
| WTimePtr (t : Instant)
| WInt64 (n : Z)
| WInt64Ptr (n : Z)
| WNullTime (t : NullTime)
| WString (s : string)
| WStringPtr (s : string)
| WScanned (ty : string) (t : Instant).

(** ** The [Time] column (seconds) *)

Module TimeColumn.

Definition defaultTimeFormat : string := "15:04:05".

Record Time : Type := mkTime {
  chType : string;
  timezone : option Location;
  name : string;
  col : ColTime
}.

Definition setChType (c : Time) (t : string) : Time :=
  mkTime t (timezone c) (name c) (col c).

Definition setTimezone (c : Time) (tz : option Location) : Time :=
  mkTime (chType c) tz (name c) (col c).

(** [col.col.Append(v)] *)
Definition push (c : Time) (v : Instant) : Time :=
  mkTime (chType c) (timezone c) (name c) (ColTime_Append (col c) v).

Definition Reset (c : Time) : Time :=
  mkTime (chType c) (timezone c) (name c) (ColTime_Reset (col c)).

Definition Name (c : Time) : string := name c.
Definition Type_ (c : Time) : string := chType c.
Definition Rows (c : Time) : Z := ColTime_Rows (col c).

(** The conversion written out at each place that takes seconds since
    midnight: [hours := seconds / 3600], [minutes := (seconds % 3600) / 60],
    [secs := seconds % 60], then [time.Date(1970, 1, 1, hours, minutes,
    secs, 0, loc)]. *)
Definition secondsToTime (seconds : Z) (loc : Location) : Instant :=
  let hours := Z.quot seconds 3600 in
  let minutes := Z.quot (Z.rem seconds 3600) 60 in
  let secs := Z.rem seconds 60 in
  Date1970 hours minutes secs 0 loc.

Definition formats : list string :=
  [ "15:04:05";
    "15:04";
    "15:04:05.999";
    "15:04:05.999999";
    "15:04:05.999999999";
    "3:04:05 PM";
    "3:04 PM";
    "15:04:05 -07:00";
    "15:04:05.999 -07:00" ].

Section Environment.

(** [timezone.Load] of the external zone registry, [None] when the name
    does not resolve, and [time.Parse]. *)
Variable LoadLocation : string -> option Location.
Variable timeParse : string -> string -> option Clock.

(** [parse] returns the column itself on success and [nil] with an error
    otherwise; the column after the call is returned in both cases. *)
Definition parse (c : Time) (t : string) (tz : option Location)
  : Time * outcome unit :=
  let c := setChType c t in
  if Strings.HasPrefix t "Time('" then
    let timezoneName := Strings.TrimSuffix (Strings.TrimPrefix t "Time('") "')" in
    match LoadLocation timezoneName with
    | None => (c, Err (LoadLocationError timezoneName))
    | Some timezone => (setTimezone c (Some timezone), Ok tt)
    end
  else if String.eqb t "Time" then (setTimezone c tz, Ok tt)
  else (c, Err (UnsupportedColumnTypeError t)).

Definition columnZone (c : Time) : Location :=
  match timezone c with
  | Some tz => tz
  | None => UTC
  end.

(** The loop over [formats] of [parseTime]: the first layout that parses
    returns. *)
Fixpoint tryFormats (c : Time) (fs : list string) (value : string)
  : option Instant :=
  match fs with
  | [] => None
  | format :: fs' =>
      match timeParse format value with
      | Some tv =>
          Some (Date1970 (clkHour tv) (clkMin tv) (clkSec tv) (clkNsec tv)
                         (columnZone c))
      | None => tryFormats c fs' value
      end
  end.

Definition parseTime (c : Time) (value : string) : outcome Instant :=
  match tryFormats c formats value with
  | Some tv => Ok tv
  | None =>
      match Strconv.ParseInt value 64 with
      | Ok seconds => Ok (secondsToTime seconds (columnZone c))
      | _ => Err (Errorf ("cannot parse time value: " ++ value))
      end
  end.

Fixpoint AppendRow (c : Time) (v : HostValue) : Time * outcome unit :=
  match v with
  | VInt64 seconds => (push c (secondsToTime seconds UTC), Ok tt)
  | VInt64Ptr (Some seconds) => (push c (secondsToTime seconds UTC), Ok tt)
  | VInt64Ptr None => (push c zeroTime, Ok tt)
  | VTime v => (push c v, Ok tt)
  | VTimePtr (Some v) => (push c v, Ok tt)
  | VTimePtr None => (push c zeroTime, Ok tt)
  | VNullTime v =>
      if Valid v then (push c (ntTime v), Ok tt) else (push c zeroTime, Ok tt)
  | VNullTimePtr (Some v) =>
      if Valid v then (push c (ntTime v), Ok tt) else (push c zeroTime, Ok tt)
  | VNullTimePtr None => (c, Panic)     (* v.Valid through a nil pointer *)
  | VNil => (push c zeroTime, Ok tt)
  | VString v =>
      match parseTime c v with
      | Ok timeValue => (push c timeValue, Ok tt)
      | Err err => (c, Err err)
      | Panic => (c, Panic)
      end
  | VValuer _ val => AppendRow c val
  | VValuerErr ty =>
      (c, Err (ColumnConverterError "AppendRow" "Time" ty
                 "could not get driver.Valuer value"))
  | _ => (c, Err (ColumnConverterError "AppendRow" "Time" (typeName v) ""))
  end.

(** [nulls = make([]uint8, len(v))] *)
Definition makeNulls {A : Type} (v : list A) : list Z :=
  repeat 0 (List.length v).

(** The loops of [Append], one per slice type.  Each returns the column
    after the last iteration it ran and the null indicators written. *)
Fixpoint appendInt64s (c : Time) (v : list Z) : Time :=
  match v with
  | [] => c
  | seconds :: rest => appendInt64s (push c (secondsToTime seconds UTC)) rest
  end.

Fixpoint appendInt64Ptrs (c : Time) (v : list (option Z)) : Time * list Z :=
  match v with
  | [] => (c, [])
  | Some seconds :: rest =>
      let '(c', nulls) := appendInt64Ptrs (push c (secondsToTime seconds UTC)) rest in
      (c', 0 :: nulls)
  | None :: rest =>
      let '(c', nulls) := appendInt64Ptrs (push c zeroTime) rest in
      (c', 1 :: nulls)
  end.

Fixpoint appendTimes (c : Time) (v : list Instant) : Time :=
  match v with
  | [] => c
  | t :: rest => appendTimes (push c t) rest
  end.

Fixpoint appendTimePtrs (c : Time) (v : list (option Instant)) : Time * list Z :=
  match v with
  | [] => (c, [])
  | Some t :: rest =>
      let '(c', nulls) := appendTimePtrs (push c t) rest in (c', 0 :: nulls)
  | None :: rest =>
      let '(c', nulls) := appendTimePtrs (push c zeroTime) rest in (c', 1 :: nulls)
  end.

(** [for i := range v { col.AppendRow(v[i]) }]: the error of [AppendRow] is
    dropped, no indicator is written. *)
Fixpoint appendNullTimes (c : Time) (v : list NullTime) : Time * outcome (list Z) :=
  match v with
  | [] => (c, Ok [])
  | x :: rest =>
      match AppendRow c (VNullTime x) with
      | (c', Panic) => (c', Panic)
      | (c', _) =>
          match appendNullTimes c' rest with
          | (c'', Ok nulls) => (c'', Ok (0 :: nulls))
          | other => other
          end
      end
  end.

(** [if v[i] == nil { nulls[i] = 1 }; col.AppendRow(v[i])] *)
Fixpoint appendNullTimePtrs (c : Time) (v : list (option NullTime))
  : Time * outcome (list Z) :=
  match v with
  | [] => (c, Ok [])
  | x :: rest =>
      let null := match x with None => 1 | Some _ => 0 end in
      match AppendRow c (VNullTimePtr x) with
      | (c', Panic) => (c', Panic)
      | (c', _) =>
          match appendNullTimePtrs c' rest with
          | (c'', Ok nulls) => (c'', Ok (null :: nulls))
          | other => other
          end
      end
  end.

(** [value, err := col.parseTime(v[i]); if err != nil { return nil, err }] *)
Fixpoint appendStrings (c : Time) (v : list string) : Time * outcome unit :=
  match v with
  | [] => (c, Ok tt)
  | s :: rest =>
      match parseTime c s with
      | Ok value => appendStrings (push c value) rest
      | Err err => (c, Err err)
      | Panic => (c, Panic)
      end
  end.

Fixpoint Append (c : Time) (v : HostValue) : Time * outcome (list Z) :=
  match v with
  | VInt64s v => (appendInt64s c v, Ok (makeNulls v))
  | VInt64Ptrs v => let '(c', nulls) := appendInt64Ptrs c v in (c', Ok nulls)
  | VTimes v => (appendTimes c v, Ok (makeNulls v))
  | VTimePtrs v => let '(c', nulls) := appendTimePtrs c v in (c', Ok nulls)
  | VNullTimes v => appendNullTimes c v
  | VNullTimePtrs v => appendNullTimePtrs c v
  | VStrings v =>
      match appendStrings c v with
      | (c', Ok _) => (c', Ok (makeNulls v))
      | (c', Err err) => (c', Err err)
      | (c', Panic) => (c', Panic)
      end
  | VValuer _ val => Append c val
  | VValuerErr ty =>
      (c, Err (ColumnConverterError "Append" "Time" ty
                 "could not get driver.Valuer value"))
  (* [sql.NullTime] has no case and implements [driver.Valuer]: [Value()]
     gives the wrapped [time.Time] when valid and [nil] otherwise, and
     [Append] of either is the conversion error of that type.  Calling
     [Value()] through a nil [*sql.NullTime] panics. *)
  | VNullTime x | VNullTimePtr (Some x) =>
      if Valid x
      then (c, Err (ColumnConverterError "Append" "Time" "time.Time" ""))
      else (c, Err (ColumnConverterError "Append" "Time" "<nil>" ""))
  | VNullTimePtr None => (c, Panic)
  | _ => (c, Err (ColumnConverterError "Append" "Time" (typeName v) ""))
  end.

End Environment.

(** [row]: the stored row, read in the column's zone when it has one.
    [None] is the panic of an index out of range. *)
Definition row (c : Time) (i : Z) : option Instant :=
  match ColTime_Row (col c) i with
  | Some time =>
      match timezone c with
      | Some tz => Some (In time tz)
      | None => Some time
      end
  | None => None
  end.

(** [Row(i, ptr)]: the instant, or a pointer to a copy of it. *)
Definition Row (c : Time) (i : Z) (ptr : bool) : option Instant := row c i.

Definition secondsOf (t : Instant) : Z :=
  Hour t * 3600 + Minute t * 60 + Second t.

Definition withRow {A : Type} (c : Time) (i : Z) (k : Instant -> outcome A)
  : outcome A :=
  match row c i with
  | Some t => k t
  | None => Panic
  end.

Definition ScanRow (c : Time) (dest : Dest) (i : Z) : outcome Written :=
  match dest with
  | DTime => withRow c i (fun t => Ok (WTime t))
  | DTimePtr => withRow c i (fun t => Ok (WTimePtr t))
  | DInt64 => withRow c i (fun t => Ok (WInt64 (secondsOf t)))
  | DInt64Ptr => withRow c i (fun t => Ok (WInt64Ptr (secondsOf t)))
  | DNullTime => withRow c i (fun t => Ok (WNullTime (mkNullTime t true)))
  | DString => withRow c i (fun t => Ok (WString (Format_15_04_05 t)))
  | DStringPtr => withRow c i (fun t => Ok (WStringPtr (Format_15_04_05 t)))
  | DScanner ty scan =>
      withRow c i (fun t =>
        match scan t with
        | None => Ok (WScanned ty t)
        | Some err => Err err
        end)
  | DOther ty => Err (ColumnConverterError "ScanRow" ty "Time" "")
  end.

End TimeColumn.

(** ** The [Time64] column (sub-second) *)

Module Time64Column.

Definition defaultTime64Format : string := "15:04:05.999999999".

Record Time64 : Type := mkTime64 {
  chType : string;
  timezone : option Location;
  name : string;
  col : ColTime64
}.

Definition setChType (c : Time64) (t : string) : Time64 :=
  mkTime64 t (timezone c) (name c) (col c).

Definition setTimezone (c : Time64) (tz : option Location) : Time64 :=
  mkTime64 (chType c) tz (name c) (col c).

(** [col.col.WithPrecision(proto.Precision(p))] *)
Definition setPrecision (c : Time64) (p : Z) : Time64 :=
  mkTime64 (chType c) (timezone c) (name c) (ColTime64_WithPrecision (col c) p).

(** [col.col.Append(v)] *)
Definition push (c : Time64) (v : Instant) : Time64 :=
  mkTime64 (chType c) (timezone c) (name c) (ColTime64_Append (col c) v).

Definition Reset (c : Time64) : Time64 :=
  mkTime64 (chType c) (timezone c) (name c) (ColTime64_Reset (col c)).

Definition Name (c : Time64) : string := name c.
Definition Type_ (c : Time64) : string := chType c.
Definition Rows (c : Time64) : Z := ColTime64_Rows (col c).

(** [Precision() (int64, bool)] *)
Definition Precision_ (c : Time64) : Z * bool :=
  (Precision (col c), PrecisionSet (col c)).

(** [byte(precision)] of an [int64] *)
Definition byte (precision : Z) : Z := precision mod 256.

(** The conversion written out at each place that takes an integer:
    [seconds := milliseconds / 1000], [hours := seconds / 3600],
    [minutes := (seconds % 3600) / 60], [secs := seconds % 60],
    [nsecs := (milliseconds % 1000) * 1000000], then
    [time.Date(1970, 1, 1, hours, minutes, secs, nsecs, loc)]. *)
Definition millisecondsToTime (milliseconds : Z) (loc : Location) : Instant :=
  let seconds := Z.quot milliseconds 1000 in
  let hours := Z.quot seconds 3600 in
  let minutes := Z.quot (Z.rem seconds 3600) 60 in
  let secs := Z.rem seconds 60 in
  let nsecs := Z.rem milliseconds 1000 * 1000000 in
  Date1970 hours minutes secs nsecs loc.

Definition formats : list string :=
  [ "15:04:05";
    "15:04";
    "15:04:05.999";
    "15:04:05.999999";
    "15:04:05.999999999";
    "3:04:05 PM";
    "3:04 PM";
    "15:04:05 -07:00";
    "15:04:05.999 -07:00";
    "15:04:05.999999 -07:00";
    "15:04:05.999999999 -07:00" ].

Section Environment.

Variable LoadLocation : string -> option Location.
Variable timeParse : string -> string -> option Clock.

Definition parse (c : Time64) (t : string) (tz : option Location)
  : Time64 * outcome unit :=
  let c := setChType c t in
  if Strings.HasPrefix t "Time64(" then
    if Strings.ContainsChar t "," then
      match Strings.SplitChar t "," with
      | [part0; part1] =>
          let precisionStr :=
            Strings.TrimSuffix (Strings.TrimPrefix part0 "Time64(") ")" in
          match Strconv.ParseInt precisionStr 8 with
          | Ok precision =>
              let c := setPrecision c (byte precision) in
              let timezoneName :=
                Strings.TrimSuffix (Strings.TrimPrefix part1 " '") "')" in
              match LoadLocation timezoneName with
              | None => (c, Err (LoadLocationError timezoneName))
              | Some timezone => (setTimezone c (Some timezone), Ok tt)
              end
          | Err err => (c, Err err)
          | Panic => (c, Panic)
          end
      | _ => (c, Err (UnsupportedColumnTypeError t))
      end
    else
      let params := Strings.TrimSuffix (Strings.TrimPrefix t "Time64(") ")" in
      match Strconv.ParseInt params 8 with
      | Ok precision =>
          (setTimezone (setPrecision c (byte precision)) tz, Ok tt)
      | Err err => (c, Err err)
      | Panic => (c, Panic)
      end
  else (c, Err (UnsupportedColumnTypeError t)).

Definition columnZone (c : Time64) : Location :=
  match timezone c with
  | Some tz => tz
  | None => UTC
  end.

Fixpoint tryFormats (c : Time64) (fs : list string) (value : string)
  : option Instant :=
  match fs with
  | [] => None
  | format :: fs' =>
      match timeParse format value with
      | Some tv =>
          Some (Date1970 (clkHour tv) (clkMin tv) (clkSec tv) (clkNsec tv)
                         (columnZone c))
      | None => tryFormats c fs' value
      end
  end.

Definition parseTime (c : Time64) (value : string) : outcome Instant :=
  match tryFormats c formats value with
  | Some tv => Ok tv
  | None =>
      match Strconv.ParseInt value 64 with
      | Ok milliseconds => Ok (millisecondsToTime milliseconds (columnZone c))
      | _ => Err (Errorf ("cannot parse time64 value: " ++ value))
      end
  end.

Fixpoint AppendRow (c : Time64) (v : HostValue) : Time64 * outcome unit :=
  match v with
  | VInt64 milliseconds => (push c (millisecondsToTime milliseconds UTC), Ok tt)
  | VInt64Ptr (Some milliseconds) =>
      (push c (millisecondsToTime milliseconds UTC), Ok tt)
  | VInt64Ptr None => (push c zeroTime, Ok tt)
  | VTime v => (push c v, Ok tt)
  | VTimePtr (Some v) => (push c v, Ok tt)
  | VTimePtr None => (push c zeroTime, Ok tt)
  | VNullTime v =>
      if Valid v then (push c (ntTime v), Ok tt) else (push c zeroTime, Ok tt)
  | VNullTimePtr (Some v) =>
      if Valid v then (push c (ntTime v), Ok tt) else (push c zeroTime, Ok tt)
  | VNullTimePtr None => (c, Panic)     (* v.Valid through a nil pointer *)
  | VString v =>
      match parseTime c v with
      | Ok timeValue => (push c timeValue, Ok tt)
      | Err err => (c, Err err)
      | Panic => (c, Panic)
      end
  | VNil => (push c zeroTime, Ok tt)
  | VValuer _ val => AppendRow c val
  | VValuerErr ty =>
      (c, Err (ColumnConverterError "AppendRow" "Time64" ty
                 "could not get driver.Valuer value"))
  | _ => (c, Err (ColumnConverterError "AppendRow" "Time64" (typeName v) ""))
  end.

Definition makeNulls {A : Type} (v : list A) : list Z :=
  repeat 0 (List.length v).

Fixpoint appendInt64s (c : Time64) (v : list Z) : Time64 :=
  match v with
  | [] => c
  | milliseconds :: rest =>
      appendInt64s (push c (millisecondsToTime milliseconds UTC)) rest
  end.

Fixpoint appendInt64Ptrs (c : Time64) (v : list (option Z)) : Time64 * list Z :=
  match v with
  | [] => (c, [])
  | Some milliseconds :: rest =>
      let '(c', nulls) :=
        appendInt64Ptrs (push c (millisecondsToTime milliseconds UTC)) rest in
      (c', 0 :: nulls)
  | None :: rest =>
      let '(c', nulls) := appendInt64Ptrs (push c zeroTime) rest in
      (c', 1 :: nulls)
  end.

Fixpoint appendTimes (c : Time64) (v : list Instant) : Time64 :=
  match v with
  | [] => c
  | t :: rest => appendTimes (push c t) rest
  end.

Fixpoint appendTimePtrs (c : Time64) (v : list (option Instant))
  : Time64 * list Z :=
  match v with
  | [] => (c, [])
  | Some t :: rest =>
      let '(c', nulls) := appendTimePtrs (push c t) rest in (c', 0 :: nulls)
  | None :: rest =>
      let '(c', nulls) := appendTimePtrs (push c zeroTime) rest in (c', 1 :: nulls)
  end.

Fixpoint appendStrings (c : Time64) (v : list string) : Time64 * outcome unit :=
  match v with
  | [] => (c, Ok tt)
  | s :: rest =>
      match parseTime c s with
      | Ok value => appendStrings (push c value) rest
      | Err err => (c, Err err)
      | Panic => (c, Panic)
      end
  end.

Fixpoint appendNullTimes (c : Time64) (v : list NullTime)
  : Time64 * outcome (list Z) :=
  match v with
  | [] => (c, Ok [])
  | x :: rest =>
      match AppendRow c (VNullTime x) with
      | (c', Panic) => (c', Panic)
      | (c', _) =>
          match appendNullTimes c' rest with
          | (c'', Ok nulls) => (c'', Ok (0 :: nulls))
          | other => other
          end
      end
  end.

Fixpoint appendNullTimePtrs (c : Time64) (v : list (option NullTime))
  : Time64 * outcome (list Z) :=
  match v with
  | [] => (c, Ok [])
  | x :: rest =>
      let null := match x with None => 1 | Some _ => 0 end in
      match AppendRow c (VNullTimePtr x) with
      | (c', Panic) => (c', Panic)
      | (c', _) =>
          match appendNullTimePtrs c' rest with
          | (c'', Ok nulls) => (c'', Ok (null :: nulls))
          | other => other
          end
      end
  end.

Fixpoint Append (c : Time64) (v : HostValue) : Time64 * outcome (list Z) :=
  match v with
  | VInt64s v => (appendInt64s c v, Ok (makeNulls v))
  | VInt64Ptrs v => let '(c', nulls) := appendInt64Ptrs c v in (c', Ok nulls)
  | VTimes v => (appendTimes c v, Ok (makeNulls v))
  | VTimePtrs v => let '(c', nulls) := appendTimePtrs c v in (c', Ok nulls)
  | VStrings v =>
      match appendStrings c v with
      | (c', Ok _) => (c', Ok (makeNulls v))
      | (c', Err err) => (c', Err err)
      | (c', Panic) => (c', Panic)
      end
  | VNullTimes v => appendNullTimes c v
  | VNullTimePtrs v => appendNullTimePtrs c v
  | VValuer _ val => Append c val
  | VValuerErr ty =>
      (c, Err (ColumnConverterError "Append" "Time64" ty
                 "could not get driver.Valuer value"))
  (* [sql.NullTime] has no case and implements [driver.Valuer]: [Value()]
     gives the wrapped [time.Time] when valid and [nil] otherwise, and
     [Append] of either is the conversion error of that type.  Calling
     [Value()] through a nil [*sql.NullTime] panics. *)
  | VNullTime x | VNullTimePtr (Some x) =>
      if Valid x
      then (c, Err (ColumnConverterError "Append" "Time64" "time.Time" ""))
      else (c, Err (ColumnConverterError "Append" "Time64" "<nil>" ""))
  | VNullTimePtr None => (c, Panic)
  | _ => (c, Err (ColumnConverterError "Append" "Time64" (typeName v) ""))
  end.

End Environment.

Definition row (c : Time64) (i : Z) : option Instant :=
  match ColTime64_Row (col c) i with
  | Some time =>
      match timezone c with
      | Some tz => Some (In time tz)
      | None => Some time
      end
  | None => None
  end.

Definition Row (c : Time64) (i : Z) (ptr : bool) : option Instant := row c i.

(** [t.Hour()*3600000 + t.Minute()*60000 + t.Second()*1000 +
    t.Nanosecond()/1000000] *)
Definition millisecondsOf (t : Instant) : Z :=
  Hour t * 3600000 + Minute t * 60000 + Second t * 1000
  + Z.quot (Nanosecond t) 1000000.

Definition withRow {A : Type} (c : Time64) (i : Z) (k : Instant -> outcome A)
  : outcome A :=
  match row c i with
  | Some t => k t
  | None => Panic
  end.

(** There is no case for [*string] or [**string]: they reach [default]. *)
Definition ScanRow (c : Time64) (dest : Dest) (i : Z) : outcome Written :=
  match dest with
  | DTime => withRow c i (fun t => Ok (WTime t))
  | DTimePtr => withRow c i (fun t => Ok (WTimePtr t))
  | DInt64 => withRow c i (fun t => Ok (WInt64 (millisecondsOf t)))
  | DInt64Ptr => withRow c i (fun t => Ok (WInt64Ptr (millisecondsOf t)))
  | DNullTime => withRow c i (fun t => Ok (WNullTime (mkNullTime t true)))
  | DScanner ty scan =>
      withRow c i (fun t =>
        match scan t with
        | None => Ok (WScanned ty t)
        | Some err => Err err
        end)
  | DString | DStringPtr | DOther _ =>
      Err (ColumnConverterError "ScanRow" (destTypeName dest) "Time64" "")
  end.

End Time64Column.

(** ** Writing one value and reading its row back *)

(** [AppendRow(v)] followed, when it succeeds, by [ScanRow(dest, i)] for
    the index [i] of the row just appended. *)
Definition appendThenScan (timeParse : string -> string -> option Clock)
    (c : TimeColumn.Time) (v : HostValue) (dest : Dest) : outcome Written :=
  match TimeColumn.AppendRow timeParse c v with
  | (c', Ok _) => TimeColumn.ScanRow c' dest (TimeColumn.Rows c)
  | (_, Err err) => Err err
  | (_, Panic) => Panic
  end.

Definition appendThenScan64 (timeParse : string -> string -> option Clock)
    (c : Time64Column.Time64) (v : HostValue) (dest : Dest) : outcome Written :=
  match Time64Column.AppendRow timeParse c v with
  | (c', Ok _) => Time64Column.ScanRow c' dest (Time64Column.Rows c)
  | (_, Err err) => Err err
  | (_, Panic) => Panic
  end.

(** The instant [parseTime] builds from a parsed time:
    [time.Date(1970, 1, 1, tv.Hour(), tv.Minute(), tv.Second(),
    tv.Nanosecond(), timezone)]. *)
Definition clockToTime (tv : Clock) (loc : Location) : Instant :=
  Date1970 (clkHour tv) (clkMin tv) (clkSec tv) (clkNsec tv) loc.

(** A column "with no timezone (or UTC)". *)
Definition zoneIsUTC (tz : option Location) : Prop :=
  match tz with
  | None => True
  | Some loc => zoneOffset loc = 0
  end.

(** The destination shapes each [ScanRow] has a case for, and the
    destinations that reach [default] and implement [sql.Scanner]. *)
Definition supportedByTime (d : Dest) : bool :=
  match d with
  | DTime | DTimePtr | DInt64 | DInt64Ptr | DNullTime | DString | DStringPtr => true
  | _ => false
  end.

Definition supportedByTime64 (d : Dest) : bool :=
  match d with
  | DTime | DTimePtr | DInt64 | DInt64Ptr | DNullTime => true
  | _ => false
  end.

Definition implementsScanner (d : Dest) : bool :=
  match d with
  | DScanner _ _ => true
  | _ => false
  end.

(** ** The reading the specification gives of an integer of a [Time64] column *)

Module Spec.



End Spec.

(** ** Columns and a zone registry to evaluate the code on *)

Module Fixtures.

(** A registry that knows the zone [UTC] and no other. *)
Definition utcRegistry (zone : string) : option Location :=
  if String.eqb zone "UTC" then Some UTC else None.

(** [&Time{name: "t"}] and [&Time64{name: "t"}] *)
Definition emptyTime : TimeColumn.Time :=
  TimeColumn.mkTime "" None "t" (mkColTime []).

Definition emptyTime64 : Time64Column.Time64 :=
  Time64Column.mkTime64 "" None "t" (mkColTime64 [] 0 false).

(** The column that a successful [parse] of [Time64(p)] leaves. *)
Definition time64Of (p : Z) : Time64Column.Time64 :=
  Time64Column.mkTime64 "" None "t" (mkColTime64 [] p true).

End Fixtures.

(** ** Batches and their elements *)

(** The elements of a slice handed to [Append], each as the value
    [AppendRow] would be given; a [driver.Valuer] stands for the value it
    produces.  [None] for a value that is no slice of a handled type. *)
Fixpoint batchElements (v : HostValue) : option (list HostValue) :=
  match v with
  | VInt64s v => Some (map VInt64 v)
  | VInt64Ptrs v => Some (map VInt64Ptr v)
  | VTimes v => Some (map VTime v)
  | VTimePtrs v => Some (map VTimePtr v)
  | VNullTimes v => Some (map VNullTime v)
  | VNullTimePtrs v => Some (map VNullTimePtr v)
  | VStrings v => Some (map VString v)
  | VValuer _ val => batchElements val
  | _ => None
  end.

(** Appending the elements one at a time with [AppendRow]. *)
Definition appendRows (timeParse : string -> string -> option Clock)
    (c : TimeColumn.Time) (elems : list HostValue) : TimeColumn.Time :=
  fold_left (fun c x => fst (TimeColumn.AppendRow timeParse c x)) elems c.

Definition appendRows64 (timeParse : string -> string -> option Clock)
    (c : Time64Column.Time64) (elems : list HostValue) : Time64Column.Time64 :=
  fold_left (fun c x => fst (Time64Column.AppendRow timeParse c x)) elems c.

(** The null indicator of a pointer: 1 for [nil]. *)
Definition nilIndicator {A : Type} (x : option A) : Z :=
  match x with
  | None => 1
  | Some _ => 0
  end.

(** The number of occurrences of a byte in a string. *)
Fixpoint countChar (s : string) (sep : ascii) : nat :=
  match s with
  | EmptyString => O
  | String c s' => ((if Ascii.eqb c sep then 1 else 0) + countChar s' sep)%nat
  end.

(** The decimal digit [d], 0 to 9, as a string of one byte. *)
Definition digitString (d : Z) : string := String (digitChar d) EmptyString.

(** "HH:MM:SS" *)
Definition clockString (h m s : Z) : string :=
  pad2 h ++ ":" ++ pad2 m ++ ":" ++ pad2 s.

(** "HH:MM:SS.mmm", with three digits of milliseconds *)
Definition pad3 (n : Z) : string :=
  String (digitChar (n / 100))
    (String (digitChar ((n / 10) mod 10))
       (String (digitChar (n mod 10)) EmptyString)).

Definition clockStringMillis (h m s ms : Z) : string :=
  pad2 h ++ ":" ++ pad2 m ++ ":" ++ pad2 s ++ "." ++ pad3 ms.

(** * Properties *)

(** ** Arithmetic of the clock fields *)

Lemma nth_error_snoc {A : Type} (l : list A) (x : A) :
  nth_error (l ++ [x])%list (List.length l) = Some x.
Proof.
  induction l as [| a l IH]; simpl; [reflexivity | exact IH].
Qed.

Lemma ColTime_Row_Append (c : ColTime) (v : Instant) :
  ColTime_Row (ColTime_Append c v) (ColTime_Rows c) = Some (fromTick (toTick v)).
Proof.
  unfold ColTime_Row, ColTime_Append, ColTime_Rows; simpl.
  rewrite length_app; simpl.
  replace ((0 <=? Z.of_nat (List.length (Data c)))
           && (Z.of_nat (List.length (Data c))
               <? Z.of_nat (List.length (Data c) + 1)))
    with true by (symmetry; apply andb_true_iff; split;
                  [apply Z.leb_le | apply Z.ltb_lt]; lia).
  rewrite Nat2Z.id, nth_error_snoc; reflexivity.
Qed.

Lemma ColTime64_Row_Append (c : ColTime64) (v : Instant) :
  ColTime64_Row (ColTime64_Append c v) (ColTime64_Rows c)
  = Some (fromTick64 (Precision c) (toTick64 (Precision c) v)).
Proof.
  unfold ColTime64_Row, ColTime64_Append, ColTime64_Rows; simpl.
  rewrite length_app; simpl.
  replace ((0 <=? Z.of_nat (List.length (Data64 c)))
           && (Z.of_nat (List.length (Data64 c))
               <? Z.of_nat (List.length (Data64 c) + 1)))
    with true by (symmetry; apply andb_true_iff; split;
                  [apply Z.leb_le | apply Z.ltb_lt]; lia).
  rewrite Nat2Z.id, nth_error_snoc; reflexivity.
Qed.

(** The three components of [secondsToTime] add up to the seconds given,
    whatever their sign. *)
Lemma unixSec_secondsToTime (seconds : Z) :
  unixSec (TimeColumn.secondsToTime seconds UTC) = seconds.
Proof.
  unfold TimeColumn.secondsToTime, Date1970; simpl.
  Z.to_euclidean_division_equations; lia.
Qed.

Lemma secondsOf_secondOfDay (t : Instant) :
  TimeColumn.secondsOf t = secondOfDay t.
Proof.
  unfold TimeColumn.secondsOf, Hour, Minute, Second.
  Z.to_euclidean_division_equations; lia.
Qed.

Lemma secondOfDay_fromTick (tick : Z) :
  0 <= tick < 86400 -> secondOfDay (fromTick tick) = tick.
Proof.
  intros H; unfold secondOfDay, fromTick, Date1970; simpl.
  Z.to_euclidean_division_equations; lia.
Qed.

Lemma secondOfDay_In (t : Instant) (loc : Location) :
  zoneOffset loc = 0 -> zoneOffset (location t) = 0 ->
  secondOfDay (In t loc) = secondOfDay t.
Proof.
  intros H1 H2; unfold secondOfDay, In; simpl; rewrite H1, H2; reflexivity.
Qed.

(** An integer written to a [Time] column read in UTC comes back reduced
    to the seconds of one day. *)
Lemma Time_scan_after_append_int64
    (timeParse : string -> string -> option Clock)
    (c : TimeColumn.Time) (seconds : Z) :
  zoneIsUTC (TimeColumn.timezone c) ->
  appendThenScan timeParse c (VInt64 seconds) DInt64
  = Ok (WInt64 (seconds mod 86400)).
Proof.
  intros Hz.
  unfold appendThenScan; simpl.
  unfold TimeColumn.withRow, TimeColumn.row, TimeColumn.Rows; simpl.
  rewrite ColTime_Row_Append.
  assert (Htick : toTick (TimeColumn.secondsToTime seconds UTC) = seconds mod 86400).
  { unfold toTick, secondOfDay. rewrite unixSec_secondsToTime. simpl.
    rewrite Z.add_0_r. reflexivity. }
  rewrite Htick.
  assert (Hr : 0 <= seconds mod 86400 < 86400) by (apply Z.mod_pos_bound; lia).
  destruct (TimeColumn.timezone c) as [tz |]; simpl in Hz.
  - rewrite secondsOf_secondOfDay, secondOfDay_In by (assumption || reflexivity).
    rewrite secondOfDay_fromTick by assumption. reflexivity.
  - rewrite secondsOf_secondOfDay, secondOfDay_fromTick by assumption.
    reflexivity.
Qed.

Lemma tickNanos_divides_millisecond (p x : Z) :
  3 <= p <= 9 ->
  (x * 1000000) / tickNanos p * tickNanos p = x * 1000000.
Proof.
  intros Hp.
  assert (Hc : p = 3 \/ p = 4 \/ p = 5 \/ p = 6 \/ p = 7 \/ p = 8 \/ p = 9) by lia.
  unfold tickNanos.
  destruct Hc as [-> | [-> | [-> | [-> | [-> | [-> | ->]]]]]];
    match goal with
    | |- context [10 ^ ?e] =>
        let k := eval vm_compute in (10 ^ e) in change (10 ^ e) with k
    end;
    Z.to_euclidean_division_equations; lia.
Qed.

Lemma nanoOfDay_millisecondsToTime (milliseconds : Z) :
  0 <= milliseconds < 86400000 ->
  nanoOfDay (Time64Column.millisecondsToTime milliseconds UTC)
  = milliseconds * 1000000.
Proof.
  intros H.
  unfold nanoOfDay, secondOfDay, Time64Column.millisecondsToTime, Date1970; simpl.
  Z.to_euclidean_division_equations; lia.
Qed.

Lemma millisecondsOf_nanoOfDay (t : Instant) :
  0 <= nanos t < 1000000000 ->
  Time64Column.millisecondsOf t = nanoOfDay t / 1000000.
Proof.
  intros H.
  unfold Time64Column.millisecondsOf, nanoOfDay, Hour, Minute, Second, Nanosecond.
  Z.to_euclidean_division_equations; lia.
Qed.

Lemma nanos_fromTick64 (p tick : Z) :
  0 <= nanos (fromTick64 p tick) < 1000000000.
Proof.
  unfold fromTick64, Date1970; simpl. apply Z.mod_pos_bound; lia.
Qed.

Lemma nanoOfDay_fromTick64 (p tick : Z) :
  0 <= tick * tickNanos p < 86400000000000 ->
  nanoOfDay (fromTick64 p tick) = tick * tickNanos p.
Proof.
  intros H.
  unfold nanoOfDay, secondOfDay, fromTick64, Date1970; simpl.
  Z.to_euclidean_division_equations; lia.
Qed.

Lemma nanoOfDay_In (t : Instant) (loc : Location) :
  zoneOffset loc = 0 -> zoneOffset (location t) = 0 ->
  nanoOfDay (In t loc) = nanoOfDay t.
Proof.
  intros H1 H2. unfold nanoOfDay. rewrite secondOfDay_In by assumption.
  reflexivity.
Qed.

(** An integer written to a [Time64] column of precision 3 to 9 read in
    UTC comes back when it counts the milliseconds of one day. *)
Lemma Time64_scan_after_append_int64
    (timeParse : string -> string -> option Clock)
    (c : Time64Column.Time64) (milliseconds : Z) :
  zoneIsUTC (Time64Column.timezone c) ->
  3 <= Precision (Time64Column.col c) <= 9 ->
  0 <= milliseconds < 86400000 ->
  appendThenScan64 timeParse c (VInt64 milliseconds) DInt64
  = Ok (WInt64 milliseconds).
Proof.
  intros Hz Hp Hm.
  unfold appendThenScan64; simpl.
  unfold Time64Column.withRow, Time64Column.row, Time64Column.Rows; simpl.
  rewrite ColTime64_Row_Append.
  set (p := Precision (Time64Column.col c)) in *.
  set (tick := toTick64 p (Time64Column.millisecondsToTime milliseconds UTC)).
  assert (Htick : tick * tickNanos p = milliseconds * 1000000).
  { unfold tick, toTick64. rewrite nanoOfDay_millisecondsToTime by assumption.
    apply tickNanos_divides_millisecond; assumption. }
  assert (Hday : nanoOfDay (fromTick64 p tick) = milliseconds * 1000000).
  { rewrite nanoOfDay_fromTick64; [assumption | lia]. }
  assert (Hres : forall t : Instant,
             0 <= nanos t < 1000000000 ->
             nanoOfDay t = milliseconds * 1000000 ->
             Time64Column.millisecondsOf t = milliseconds).
  { intros t Hn Ht. rewrite millisecondsOf_nanoOfDay, Ht by assumption.
    apply Z.div_mul; lia. }
  destruct (Time64Column.timezone c) as [tz |]; simpl in Hz.
  - rewrite Hres; [reflexivity | apply nanos_fromTick64 |].
    rewrite nanoOfDay_In by (assumption || reflexivity). assumption.
  - rewrite Hres; [reflexivity | apply nanos_fromTick64 | assumption].
Qed.

Lemma nanos_row64 (c : Time64Column.Time64) (i : Z) (t : Instant) :
  Time64Column.row c i = Some t -> 0 <= nanos t < 1000000000.
Proof.
  unfold Time64Column.row, ColTime64_Row.
  destruct ((0 <=? i) && (i <? ColTime64_Rows (Time64Column.col c)));
    [| discriminate].
  destruct (nth_error (Data64 (Time64Column.col c)) (Z.to_nat i)) as [tick |];
    simpl; [| discriminate].
  destruct (Time64Column.timezone c); intros H; inversion H; subst; simpl;
    apply Z.mod_pos_bound; lia.
Qed.

(** ** Integers written and read back (C1, C2, C10) *)

(** C1, as amended: an integer [t] with [0 <= t < 86400] appended to a
    [Time] column that has no timezone or one at offset zero is scanned
    back as [t]; an integer [ms] with [0 <= ms < 86400000], which
    [Time64] takes as milliseconds whatever the precision, appended to a
    [Time64] column of precision 3 to 9 in UTC is scanned back as [ms]. *)
Theorem C1_int64_round_trip
    (timeParse : string -> string -> option Clock)
    (c : TimeColumn.Time) (c64 : Time64Column.Time64) (t ms : Z) :
  zoneIsUTC (TimeColumn.timezone c) ->
  zoneIsUTC (Time64Column.timezone c64) ->
  3 <= Precision (Time64Column.col c64) <= 9 ->
  0 <= t < 86400 ->
  0 <= ms < 86400000 ->
  appendThenScan timeParse c (VInt64 t) DInt64 = Ok (WInt64 t)
  /\ appendThenScan64 timeParse c64 (VInt64 ms) DInt64 = Ok (WInt64 ms).
Proof.
  intros Hz Hz64 Hp Ht Hms; split.
  - rewrite Time_scan_after_append_int64 by assumption.
    rewrite Z.mod_small by assumption. reflexivity.
  - apply Time64_scan_after_append_int64; assumption.
Qed.

Lemma C1_int64_round_trip_witness :
  appendThenScan GoTime.Parse Fixtures.emptyTime (VInt64 45045) DInt64
  = Ok (WInt64 45045)
  /\ appendThenScan64 GoTime.Parse (Fixtures.time64Of 6) (VInt64 45045123) DInt64
     = Ok (WInt64 45045123).
Proof.
  apply (C1_int64_round_trip GoTime.Parse Fixtures.emptyTime
           (Fixtures.time64Of 6) 45045 45045123); simpl; try exact I; lia.
Defined.

(** C1 as stated fails for [Time64]: on a column declared [Time64(9)] the
    tick 86400000 (0.0864 s after midnight, far inside the day) is taken
    as 86400000 milliseconds, a whole day, and is scanned back as 0. *)
Lemma C1_counterexample :
  let c := fst (Time64Column.parse Fixtures.utcRegistry Fixtures.emptyTime64
                  "Time64(9)" None) in
  zoneIsUTC (Time64Column.timezone c)
  /\ Precision (Time64Column.col c) = 9
  /\ 0 <= 86400000 < 86400 * 10 ^ 9
  /\ appendThenScan64 GoTime.Parse c (VInt64 86400000) DInt64 = Ok (WInt64 0)
  /\ appendThenScan64 GoTime.Parse c (VInt64 86400000) DInt64
     <> Ok (WInt64 86400000).
Proof.
  cbv zeta.
  split; [exact I |].
  split; [reflexivity |].
  split; [lia |].
  split; [vm_compute; reflexivity | vm_compute; discriminate].
Qed.

(** C10: a negative [t] with [-86400 <= t < 0] appended to a [Time] column
    without timezone is scanned back as [t + 86400].  The truncating
    division gives components that are zero or negative, [time.Date]
    normalises them to the instant [t] seconds before the sentinel
    midnight, on the previous day, and the clock fields read back are the
    non-negative ones of that day. *)
Theorem C10_negative_seconds_wrap
    (timeParse : string -> string -> option Clock)
    (c : TimeColumn.Time) (t : Z) :
  TimeColumn.timezone c = None ->
  - 86400 <= t < 0 ->
  Z.quot t 3600 <= 0 /\ Z.quot (Z.rem t 3600) 60 <= 0 /\ Z.rem t 60 <= 0
  /\ unixSec (TimeColumn.secondsToTime t UTC) = t
  /\ appendThenScan timeParse c (VInt64 t) DInt64 = Ok (WInt64 (t + 86400)).
Proof.
  intros Hz Ht.
  repeat split; try (Z.to_euclidean_division_equations; lia).
  - apply unixSec_secondsToTime.
  - rewrite Time_scan_after_append_int64 by (rewrite Hz; exact I).
    f_equal. f_equal. Z.to_euclidean_division_equations; lia.
Qed.

Lemma C10_negative_seconds_wrap_witness :
  appendThenScan GoTime.Parse Fixtures.emptyTime (VInt64 (-1)) DInt64
  = Ok (WInt64 86399).
Proof.
  apply (C10_negative_seconds_wrap GoTime.Parse Fixtures.emptyTime (-1));
    [reflexivity | lia].
Defined.

(** The rows after a run of appended instants. *)
Lemma Time_appendTimes_Data (vals : list Instant) :
  forall c : TimeColumn.Time,
    Data (TimeColumn.col (TimeColumn.appendTimes c vals))
    = (Data (TimeColumn.col c) ++ map toTick vals)%list.
Proof.
  induction vals as [| v vals IH]; intros c; simpl.
  - rewrite app_nil_r. reflexivity.
  - rewrite IH. simpl. rewrite <- app_assoc. reflexivity.
Qed.

Lemma Time64_appendTimes_Data (vals : list Instant) :
  forall c : Time64Column.Time64,
    Data64 (Time64Column.col (Time64Column.appendTimes c vals))
    = (Data64 (Time64Column.col c)
       ++ map (toTick64 (Precision (Time64Column.col c))) vals)%list.
Proof.
  induction vals as [| v vals IH]; intros c; simpl.
  - rewrite app_nil_r. reflexivity.
  - rewrite IH. simpl. rewrite <- app_assoc. reflexivity.
Qed.






(** ** Batches of strings (C3) *)

Section StringBatches.

Variable timeParse : string -> string -> option Clock.

Lemma Time_tryFormats_push (c : TimeColumn.Time) (v : Instant)
    (fs : list string) (s : string) :
  TimeColumn.tryFormats timeParse (TimeColumn.push c v) fs s
  = TimeColumn.tryFormats timeParse c fs s.
Proof.
  induction fs as [| f fs IH]; simpl; [reflexivity |].
  destruct (timeParse f s); [reflexivity | exact IH].
Qed.

Lemma Time_parseTime_push (c : TimeColumn.Time) (v : Instant) (s : string) :
  TimeColumn.parseTime timeParse (TimeColumn.push c v) s
  = TimeColumn.parseTime timeParse c s.
Proof.
  unfold TimeColumn.parseTime. rewrite Time_tryFormats_push. reflexivity.
Qed.

Lemma Time64_tryFormats_push (c : Time64Column.Time64) (v : Instant)
    (fs : list string) (s : string) :
  Time64Column.tryFormats timeParse (Time64Column.push c v) fs s
  = Time64Column.tryFormats timeParse c fs s.
Proof.
  induction fs as [| f fs IH]; simpl; [reflexivity |].
  destruct (timeParse f s); [reflexivity | exact IH].
Qed.

Lemma Time64_parseTime_push (c : Time64Column.Time64) (v : Instant) (s : string) :
  Time64Column.parseTime timeParse (Time64Column.push c v) s
  = Time64Column.parseTime timeParse c s.
Proof.
  unfold Time64Column.parseTime. rewrite Time64_tryFormats_push. reflexivity.
Qed.

(** The loop stops at the first string that does not convert, after it has
    appended the values of the strings before it. *)
Lemma Time_appendStrings_stops (pre : list string) :
  forall (c : TimeColumn.Time) (vals : list Instant) (bad : string)
         (post : list string) (err : Error),
    Forall2 (fun s v => TimeColumn.parseTime timeParse c s = Ok v) pre vals ->
    TimeColumn.parseTime timeParse c bad = Err err ->
    TimeColumn.appendStrings timeParse c (pre ++ bad :: post)%list
    = (TimeColumn.appendTimes c vals, Err err).
Proof.
  induction pre as [| s pre IH]; intros c vals bad post err Hpre Hbad.
  - inversion Hpre; subst. simpl. rewrite Hbad. reflexivity.
  - inversion Hpre as [| s' v pre' vals' Hs Hrest]; subst. simpl.
    rewrite Hs. apply IH.
    + eapply Forall2_impl; [| exact Hrest].
      intros a b Hab. rewrite Time_parseTime_push. exact Hab.
    + rewrite Time_parseTime_push. exact Hbad.
Qed.

Lemma Time64_appendStrings_stops (pre : list string) :
  forall (c : Time64Column.Time64) (vals : list Instant) (bad : string)
         (post : list string) (err : Error),
    Forall2 (fun s v => Time64Column.parseTime timeParse c s = Ok v) pre vals ->
    Time64Column.parseTime timeParse c bad = Err err ->
    Time64Column.appendStrings timeParse c (pre ++ bad :: post)%list
    = (Time64Column.appendTimes c vals, Err err).
Proof.
  induction pre as [| s pre IH]; intros c vals bad post err Hpre Hbad.
  - inversion Hpre; subst. simpl. rewrite Hbad. reflexivity.
  - inversion Hpre as [| s' v pre' vals' Hs Hrest]; subst. simpl.
    rewrite Hs. apply IH.
    + eapply Forall2_impl; [| exact Hrest].
      intros a b Hab. rewrite Time64_parseTime_push. exact Hab.
    + rewrite Time64_parseTime_push. exact Hbad.
Qed.

End StringBatches.

(** C3, as amended: when the string at some position of a [[]string]
    batch does not convert, [Append] of either variant returns that error
    and no null indicators, and nothing is appended for that string or a
    later one; the values of the strings before it stay appended to the
    row store (the call does not undo them). *)
Theorem C3_string_batch_stops_at_first_failure
    (timeParse : string -> string -> option Clock)
    (c : TimeColumn.Time) (c64 : Time64Column.Time64)
    (pre : list string) (vals vals64 : list Instant)
    (bad : string) (post : list string) (err err64 : Error) :
  Forall2 (fun s v => TimeColumn.parseTime timeParse c s = Ok v) pre vals ->
  TimeColumn.parseTime timeParse c bad = Err err ->
  Forall2 (fun s v => Time64Column.parseTime timeParse c64 s = Ok v) pre vals64 ->
  Time64Column.parseTime timeParse c64 bad = Err err64 ->
  (TimeColumn.Append timeParse c (VStrings (pre ++ bad :: post))
   = (TimeColumn.appendTimes c vals, Err err)
   /\ Data (TimeColumn.col (TimeColumn.appendTimes c vals))
      = (Data (TimeColumn.col c) ++ map toTick vals)%list)
  /\ (Time64Column.Append timeParse c64 (VStrings (pre ++ bad :: post))
      = (Time64Column.appendTimes c64 vals64, Err err64)
      /\ Data64 (Time64Column.col (Time64Column.appendTimes c64 vals64))
         = (Data64 (Time64Column.col c64)
            ++ map (toTick64 (Precision (Time64Column.col c64))) vals64)%list).
Proof.
  intros Hpre Hbad Hpre64 Hbad64. split; split.
  - simpl. rewrite (Time_appendStrings_stops timeParse pre c vals bad post err)
      by assumption. reflexivity.
  - apply Time_appendTimes_Data.
  - simpl. rewrite (Time64_appendStrings_stops timeParse pre c64 vals64 bad post err64)
      by assumption. reflexivity.
  - apply Time64_appendTimes_Data.
Qed.

Lemma C3_string_batch_stops_at_first_failure_witness :
  (TimeColumn.Append GoTime.Parse Fixtures.emptyTime
     (VStrings (["12:30:45"] ++ "bad" :: ["08:15:30"]))
   = (TimeColumn.appendTimes Fixtures.emptyTime [Date1970 12 30 45 0 UTC],
      Err (Errorf "cannot parse time value: bad"))
   /\ Data (TimeColumn.col
              (TimeColumn.appendTimes Fixtures.emptyTime [Date1970 12 30 45 0 UTC]))
      = (Data (TimeColumn.col Fixtures.emptyTime)
         ++ map toTick [Date1970 12 30 45 0 UTC])%list)
  /\ (Time64Column.Append GoTime.Parse (Fixtures.time64Of 3)
        (VStrings (["12:30:45"] ++ "bad" :: ["08:15:30"]))
      = (Time64Column.appendTimes (Fixtures.time64Of 3) [Date1970 12 30 45 0 UTC],
         Err (Errorf "cannot parse time64 value: bad"))
      /\ Data64 (Time64Column.col
                   (Time64Column.appendTimes (Fixtures.time64Of 3)
                      [Date1970 12 30 45 0 UTC]))
         = (Data64 (Time64Column.col (Fixtures.time64Of 3))
            ++ map (toTick64 (Precision (Time64Column.col (Fixtures.time64Of 3))))
                 [Date1970 12 30 45 0 UTC])%list).
Proof.
  apply (C3_string_batch_stops_at_first_failure GoTime.Parse
           Fixtures.emptyTime (Fixtures.time64Of 3)
           ["12:30:45"] [Date1970 12 30 45 0 UTC] [Date1970 12 30 45 0 UTC]
           "bad" ["08:15:30"]
           (Errorf "cannot parse time value: bad")
           (Errorf "cannot parse time64 value: bad")).
  - constructor; [vm_compute; reflexivity | constructor].
  - vm_compute; reflexivity.
  - constructor; [vm_compute; reflexivity | constructor].
  - vm_compute; reflexivity.
Defined.

(** C3 as stated fails: the batch ["12:30:45"; "bad"] given to an empty
    column returns an error, and the row of the first string is left in
    the row store. *)
Lemma C3_counterexample :
  let after := TimeColumn.Append GoTime.Parse Fixtures.emptyTime
                 (VStrings ["12:30:45"; "bad"]) in
  let after64 := Time64Column.Append GoTime.Parse (Fixtures.time64Of 3)
                   (VStrings ["12:30:45"; "bad"]) in
  snd after = Err (Errorf "cannot parse time value: bad")
  /\ Data (TimeColumn.col Fixtures.emptyTime) = []
  /\ Data (TimeColumn.col (fst after)) = [45045]
  /\ fst after <> Fixtures.emptyTime
  /\ snd after64 = Err (Errorf "cannot parse time64 value: bad")
  /\ Data64 (Time64Column.col (Fixtures.time64Of 3)) = []
  /\ Data64 (Time64Column.col (fst after64)) = [45045000]
  /\ fst after64 <> Fixtures.time64Of 3.
Proof.
  cbv zeta.
  repeat (split; [vm_compute; first [reflexivity | discriminate] |]).
  vm_compute; discriminate.
Qed.

(** ** Batches of nullable wrappers (C4) *)

Lemma Time_appendNullTimes_nulls (timeParse : string -> string -> option Clock)
    (v : list NullTime) :
  forall c : TimeColumn.Time,
    snd (TimeColumn.appendNullTimes timeParse c v) = Ok (repeat 0 (List.length v)).
Proof.
  induction v as [| x v IH]; intros c; [reflexivity |].
  simpl. destruct (Valid x).
  - specialize (IH (TimeColumn.push c (ntTime x))).
    destruct (TimeColumn.appendNullTimes timeParse (TimeColumn.push c (ntTime x)) v)
      as [c' r]; simpl in *; rewrite IH; reflexivity.
  - specialize (IH (TimeColumn.push c zeroTime)).
    destruct (TimeColumn.appendNullTimes timeParse (TimeColumn.push c zeroTime) v)
      as [c' r]; simpl in *; rewrite IH; reflexivity.
Qed.

Lemma Time64_appendNullTimes_nulls (timeParse : string -> string -> option Clock)
    (v : list NullTime) :
  forall c : Time64Column.Time64,
    snd (Time64Column.appendNullTimes timeParse c v) = Ok (repeat 0 (List.length v)).
Proof.
  induction v as [| x v IH]; intros c; [reflexivity |].
  simpl. destruct (Valid x).
  - specialize (IH (Time64Column.push c (ntTime x))).
    destruct (Time64Column.appendNullTimes timeParse (Time64Column.push c (ntTime x)) v)
      as [c' r]; simpl in *; rewrite IH; reflexivity.
  - specialize (IH (Time64Column.push c zeroTime)).
    destruct (Time64Column.appendNullTimes timeParse (Time64Column.push c zeroTime) v)
      as [c' r]; simpl in *; rewrite IH; reflexivity.
Qed.

(** C4: what the code does with nullable wrappers.  A wrapper with
    [Valid = false], given by value or through a pointer, stores the zero
    instant, but the null indicator at its position is 0, not the 1 the
    claim asks for; a batch of [sql.NullTime] values never yields an
    indicator other than 0.  A wrapper with [Valid = true] stores the
    wrapped instant with indicator 0, as claimed. *)
Theorem C4_invalid_wrapper_gets_indicator_zero
    (timeParse : string -> string -> option Clock)
    (c : TimeColumn.Time) (c64 : Time64Column.Time64)
    (t : Instant) (v : list NullTime) :
  TimeColumn.Append timeParse c (VNullTimes [mkNullTime t false])
  = (TimeColumn.push c zeroTime, Ok [0])
  /\ TimeColumn.Append timeParse c (VNullTimePtrs [Some (mkNullTime t false)])
     = (TimeColumn.push c zeroTime, Ok [0])
  /\ TimeColumn.Append timeParse c (VNullTimes [mkNullTime t true])
     = (TimeColumn.push c t, Ok [0])
  /\ snd (TimeColumn.Append timeParse c (VNullTimes v))
     = Ok (repeat 0 (List.length v))
  /\ Time64Column.Append timeParse c64 (VNullTimes [mkNullTime t false])
     = (Time64Column.push c64 zeroTime, Ok [0])
  /\ Time64Column.Append timeParse c64 (VNullTimePtrs [Some (mkNullTime t false)])
     = (Time64Column.push c64 zeroTime, Ok [0])
  /\ Time64Column.Append timeParse c64 (VNullTimes [mkNullTime t true])
     = (Time64Column.push c64 t, Ok [0])
  /\ snd (Time64Column.Append timeParse c64 (VNullTimes v))
     = Ok (repeat 0 (List.length v)).
Proof.
  repeat (split; [first [reflexivity
                        | apply Time_appendNullTimes_nulls
                        | apply Time64_appendNullTimes_nulls] |]).
  apply Time64_appendNullTimes_nulls.
Qed.

(** ** Strings written and read back (C5) *)

(** C5: what the code does.  The string "12:30:45" written to a [Time]
    column without timezone is read back as "12:30:45", as claimed.  On a
    column declared [Time64(6)] the string "12:30:45.123456" is written
    (45045123456 ticks), but reading any row of any [Time64] column into
    a string fails: [ScanRow] has no case for [*string] and returns the
    conversion error of its default branch. *)
Theorem C5_string_round_trip
    (c64 : Time64Column.Time64) (i : Z) :
  appendThenScan GoTime.Parse Fixtures.emptyTime (VString "12:30:45") DString
  = Ok (WString "12:30:45")
  /\ (let c := fst (Time64Column.parse Fixtures.utcRegistry Fixtures.emptyTime64
                      "Time64(6)" None) in
      let written := Time64Column.AppendRow GoTime.Parse c (VString "12:30:45.123456") in
      snd written = Ok tt
      /\ Data64 (Time64Column.col (fst written)) = [45045123456]
      /\ Time64Column.ScanRow (fst written) DString 0
         = Err (ColumnConverterError "ScanRow" "*string" "Time64" ""))
  /\ Time64Column.ScanRow c64 DString i
     = Err (ColumnConverterError "ScanRow" "*string" "Time64" "")
  /\ Time64Column.ScanRow c64 DStringPtr i
     = Err (ColumnConverterError "ScanRow" "**string" "Time64" "").
Proof.
  split; [vm_compute; reflexivity |].
  split; [cbv zeta; repeat split; vm_compute; reflexivity |].
  split; reflexivity.
Qed.

(** ** Type descriptors (C6, C7) *)

(** C6: what the code does.  [Time64(bad)] and [Time64(3,4,5)] are
    rejected, as claimed.  The precision is read as a signed 8-bit integer
    and converted to a byte without a range check, so [Time64(12)] is
    accepted with precision 12 and [Time64(-1)] with precision 255; and a
    list that lacks its closing parenthesis, [Time64(3], is accepted. *)
Theorem C6_precision_not_range_checked (tz : option Location) :
  let parse := Time64Column.parse Fixtures.utcRegistry Fixtures.emptyTime64 in
  snd (parse "Time64(bad)" tz) = Err (NumError "ParseInt" "bad" false)
  /\ snd (parse "Time64(3,4,5)" tz) = Err (UnsupportedColumnTypeError "Time64(3,4,5)")
  /\ snd (parse "Time64(12)" tz) = Ok tt
  /\ Time64Column.Precision_ (fst (parse "Time64(12)" tz)) = (12, true)
  /\ snd (parse "Time64(-1)" tz) = Ok tt
  /\ Time64Column.Precision_ (fst (parse "Time64(-1)" tz)) = (255, true)
  /\ snd (parse "Time64(12, 'UTC')" tz) = Ok tt
  /\ Time64Column.Precision_ (fst (parse "Time64(12, 'UTC')" tz)) = (12, true)
  /\ snd (parse "Time64(3" tz) = Ok tt.
Proof.
  cbv zeta. repeat split; vm_compute; reflexivity.
Qed.

(** [strconv.ParseInt] fails with a [NumError] and nothing else. *)
Lemma ParseInt_error (s : string) (bitSize : Z) (e : Error) :
  Strconv.ParseInt s bitSize = Err e ->
  exists outOfRange, e = NumError "ParseInt" s outOfRange.
Proof.
  unfold Strconv.ParseInt.
  destruct (match s with
            | String "+" s' => (false, s')
            | String "-" s' => (true, s')
            | _ => (false, s)
            end) as [neg body].
  destruct (Strconv.unsignedDigits body) as [n |].
  - destruct ((- 2 ^ (bitSize - 1) <=? (if neg then - n else n))
              && ((if neg then - n else n) <=? 2 ^ (bitSize - 1) - 1));
      intros H; inversion H. eexists; reflexivity.
  - intros H; inversion H. eexists; reflexivity.
Qed.

Lemma ParseInt_no_panic (s : string) (bitSize : Z) :
  Strconv.ParseInt s bitSize <> Panic.
Proof.
  unfold Strconv.ParseInt.
  destruct (match s with
            | String "+" s' => (false, s')
            | String "-" s' => (true, s')
            | _ => (false, s)
            end) as [neg body].
  destruct (Strconv.unsignedDigits body) as [n |]; [| discriminate].
  destruct ((- 2 ^ (bitSize - 1) <=? (if neg then - n else n))
            && ((if neg then - n else n) <=? 2 ^ (bitSize - 1) - 1));
    discriminate.
Qed.

Section FailedParse.

Variable LoadLocation : string -> option Location.

Lemma Time_parse_failure (c c' : TimeColumn.Time) (t : string)
    (tz : option Location) (e : Error) :
  TimeColumn.parse LoadLocation c t tz = (c', Err e) ->
  c' = TimeColumn.setChType c t.
Proof.
  unfold TimeColumn.parse.
  destruct (Strings.HasPrefix t "Time('").
  - destruct (LoadLocation _); intros H; inversion H; reflexivity.
  - destruct (String.eqb t "Time"); intros H; inversion H; reflexivity.
Qed.

Lemma Time64_parse_failure (c c' : Time64Column.Time64) (t : string)
    (tz : option Location) (e : Error) :
  Time64Column.parse LoadLocation c t tz = (c', Err e) ->
  (c' = Time64Column.setChType c t
   /\ forall zone, e <> LoadLocationError zone)
  \/ exists (part0 part1 : string) (precision : Z),
       Strings.SplitChar t "," = [part0; part1]
       /\ Strconv.ParseInt
            (Strings.TrimSuffix (Strings.TrimPrefix part0 "Time64(") ")") 8
          = Ok precision
       /\ LoadLocation (Strings.TrimSuffix (Strings.TrimPrefix part1 " '") "')")
          = None
       /\ c' = Time64Column.setPrecision (Time64Column.setChType c t)
                 (Time64Column.byte precision)
       /\ e = LoadLocationError
                (Strings.TrimSuffix (Strings.TrimPrefix part1 " '") "')").
Proof.
  unfold Time64Column.parse.
  destruct (Strings.HasPrefix t "Time64(");
    [| intros H; inversion H; left; split; [reflexivity | discriminate]].
  destruct (Strings.ContainsChar t ",").
  - destruct (Strings.SplitChar t ",") as [| part0 [| part1 [| part2 parts]]];
      try (intros H; inversion H; left; split; [reflexivity | discriminate]).
    destruct (Strconv.ParseInt _ 8) as [precision | err |] eqn:Hint.
    + destruct (LoadLocation _) as [zone |] eqn:Hload; intros H; inversion H.
      right. exists part0, part1, precision. repeat split; assumption.
    + intros H; inversion H; subst. left. split; [reflexivity |].
      apply ParseInt_error in Hint. destruct Hint as [r ->]. discriminate.
    + discriminate.
  - destruct (Strconv.ParseInt _ 8) as [precision | err |] eqn:Hint;
      intros H; inversion H; subst. left. split; [reflexivity |].
    apply ParseInt_error in Hint. destruct Hint as [r ->]. discriminate.
Qed.

End FailedParse.

(** C7, as amended: a [parse] of either variant that returns an error
    leaves the timezone, the name and the rows of the column as they
    were, but the stored type string has been overwritten with the
    rejected descriptor before any check; and when it is the zone of
    [Time64(p, 'zone')] that does not resolve, the precision of the
    [Time64] column has been set as well, to the precision the descriptor
    gives; every other failure leaves the precision as it was. *)
Theorem C7_failed_parse_overwrites_type_string
    (LoadLocation : string -> option Location)
    (c c' : TimeColumn.Time) (c64 c64' : Time64Column.Time64)
    (t t64 : string) (tz : option Location) (e e64 : Error) :
  TimeColumn.parse LoadLocation c t tz = (c', Err e) ->
  Time64Column.parse LoadLocation c64 t64 tz = (c64', Err e64) ->
  (TimeColumn.chType c' = t
   /\ TimeColumn.timezone c' = TimeColumn.timezone c
   /\ TimeColumn.name c' = TimeColumn.name c
   /\ TimeColumn.col c' = TimeColumn.col c)
  /\ (Time64Column.chType c64' = t64
      /\ Time64Column.timezone c64' = Time64Column.timezone c64
      /\ Time64Column.name c64' = Time64Column.name c64
      /\ Data64 (Time64Column.col c64') = Data64 (Time64Column.col c64)
      /\ (Time64Column.col c64' = Time64Column.col c64
          \/ exists (p : Z) (zone : string),
               Time64Column.col c64'
               = ColTime64_WithPrecision (Time64Column.col c64) p
               /\ e64 = LoadLocationError zone)
      /\ (forall zone, e64 = LoadLocationError zone ->
          exists (part0 part1 : string) (precision : Z),
            Strings.SplitChar t64 "," = [part0; part1]
            /\ Strconv.ParseInt
                 (Strings.TrimSuffix (Strings.TrimPrefix part0 "Time64(") ")") 8
               = Ok precision
            /\ LoadLocation zone = None
            /\ Time64Column.col c64'
               = ColTime64_WithPrecision (Time64Column.col c64)
                   (Time64Column.byte precision)
            /\ Time64Column.Precision_ c64'
               = (Time64Column.byte precision, true))
      /\ ((forall zone, e64 <> LoadLocationError zone) ->
          Time64Column.col c64' = Time64Column.col c64)).
Proof.
  intros H H64.
  apply Time_parse_failure in H. subst c'.
  split; [repeat split |].
  apply Time64_parse_failure in H64.
  destruct H64 as [[-> Hother]
                  | (part0 & part1 & precision & Hsplit & Hint & Hload & -> & ->)].
  - repeat split.
    + left; reflexivity.
    + intros zone Hz. exfalso. exact (Hother zone Hz).
  - repeat split.
    + right. eexists; eexists; split; reflexivity.
    + intros zone Hz. inversion Hz; subst.
      exists part0, part1, precision. repeat split; assumption.
    + intros Hnot. exfalso. eapply Hnot. reflexivity.
Qed.

Lemma C7_failed_parse_overwrites_type_string_witness :
  let c' := fst (TimeColumn.parse Fixtures.utcRegistry Fixtures.emptyTime
                   "Time('Mars')" None) in
  let c64' := fst (Time64Column.parse Fixtures.utcRegistry Fixtures.emptyTime64
                     "Time64(3, 'Mars')" None) in
  (TimeColumn.chType c' = "Time('Mars')"
   /\ TimeColumn.timezone c' = TimeColumn.timezone Fixtures.emptyTime
   /\ TimeColumn.name c' = TimeColumn.name Fixtures.emptyTime
   /\ TimeColumn.col c' = TimeColumn.col Fixtures.emptyTime)
  /\ (Time64Column.chType c64' = "Time64(3, 'Mars')"
      /\ Time64Column.timezone c64' = Time64Column.timezone Fixtures.emptyTime64
      /\ Time64Column.name c64' = Time64Column.name Fixtures.emptyTime64
      /\ Data64 (Time64Column.col c64')
         = Data64 (Time64Column.col Fixtures.emptyTime64)
      /\ (Time64Column.col c64' = Time64Column.col Fixtures.emptyTime64
          \/ exists (p : Z) (zone : string),
               Time64Column.col c64'
               = ColTime64_WithPrecision (Time64Column.col Fixtures.emptyTime64) p
               /\ LoadLocationError "Mars" = LoadLocationError zone)
      /\ (forall zone, LoadLocationError "Mars" = LoadLocationError zone ->
          exists (part0 part1 : string) (precision : Z),
            Strings.SplitChar "Time64(3, 'Mars')" "," = [part0; part1]
            /\ Strconv.ParseInt
                 (Strings.TrimSuffix (Strings.TrimPrefix part0 "Time64(") ")") 8
               = Ok precision
            /\ Fixtures.utcRegistry zone = None
            /\ Time64Column.col c64'
               = ColTime64_WithPrecision (Time64Column.col Fixtures.emptyTime64)
                   (Time64Column.byte precision)
            /\ Time64Column.Precision_ c64'
               = (Time64Column.byte precision, true))
      /\ ((forall zone, LoadLocationError "Mars" <> LoadLocationError zone) ->
          Time64Column.col c64' = Time64Column.col Fixtures.emptyTime64)).
Proof.
  cbv zeta.
  apply (C7_failed_parse_overwrites_type_string Fixtures.utcRegistry
           Fixtures.emptyTime _ Fixtures.emptyTime64 _
           "Time('Mars')" "Time64(3, 'Mars')" None
           (LoadLocationError "Mars") (LoadLocationError "Mars"));
    vm_compute; reflexivity.
Defined.

(** C7 as stated fails: the rejected descriptor [Foo] is left in the type
    string of the [Time] column, and the failed parse of
    [Time64(3, 'Mars')] leaves both the descriptor and the precision 3 in
    the [Time64] column. *)
Lemma C7_counterexample :
  let r := TimeColumn.parse Fixtures.utcRegistry Fixtures.emptyTime "Foo" None in
  let r64 := Time64Column.parse Fixtures.utcRegistry Fixtures.emptyTime64
               "Time64(3, 'Mars')" None in
  snd r = Err (UnsupportedColumnTypeError "Foo")
  /\ TimeColumn.chType Fixtures.emptyTime = ""
  /\ TimeColumn.chType (fst r) = "Foo"
  /\ fst r <> Fixtures.emptyTime
  /\ snd r64 = Err (LoadLocationError "Mars")
  /\ Time64Column.chType Fixtures.emptyTime64 = ""
  /\ Time64Column.chType (fst r64) = "Time64(3, 'Mars')"
  /\ Time64Column.Precision_ Fixtures.emptyTime64 = (0, false)
  /\ Time64Column.Precision_ (fst r64) = (3, true)
  /\ fst r64 <> Fixtures.emptyTime64.
Proof.
  cbv zeta.
  repeat (split; [vm_compute; first [reflexivity | discriminate] |]).
  vm_compute; discriminate.
Qed.

(** ** Strings on the write path (C8) *)

Section LayoutOrder.

Variable timeParse : string -> string -> option Clock.

(** The loop over the layouts either finds every layout failing, or
    returns the time of the first layout, in list order, that parses. *)
Lemma Time_tryFormats_first (c : TimeColumn.Time) (value : string)
    (fs : list string) :
  ((forall g, List.In g fs -> timeParse g value = None)
   /\ TimeColumn.tryFormats timeParse c fs value = None)
  \/ exists pre f post tv,
       fs = (pre ++ f :: post)%list
       /\ (forall g, List.In g pre -> timeParse g value = None)
       /\ timeParse f value = Some tv
       /\ TimeColumn.tryFormats timeParse c fs value
          = Some (clockToTime tv (TimeColumn.columnZone c)).
Proof.
  induction fs as [| f fs IH]; simpl.
  - left; split; [intros g [] | reflexivity].
  - destruct (timeParse f value) as [tv |] eqn:Hf.
    + right. exists [], f, fs, tv. repeat split; try assumption.
      intros g [].
    + destruct IH as [[Hall Hnone] | (pre & f' & post & tv & -> & Hpre & Hf' & Hres)].
      * left; split; [| assumption].
        intros g [<- | Hg]; [assumption | apply Hall; assumption].
      * right. exists (f :: pre), f', post, tv. repeat split; try assumption.
        intros g [<- | Hg]; [assumption | apply Hpre; assumption].
Qed.

Lemma Time64_tryFormats_first (c : Time64Column.Time64) (value : string)
    (fs : list string) :
  ((forall g, List.In g fs -> timeParse g value = None)
   /\ Time64Column.tryFormats timeParse c fs value = None)
  \/ exists pre f post tv,
       fs = (pre ++ f :: post)%list
       /\ (forall g, List.In g pre -> timeParse g value = None)
       /\ timeParse f value = Some tv
       /\ Time64Column.tryFormats timeParse c fs value
          = Some (clockToTime tv (Time64Column.columnZone c)).
Proof.
  induction fs as [| f fs IH]; simpl.
  - left; split; [intros g [] | reflexivity].
  - destruct (timeParse f value) as [tv |] eqn:Hf.
    + right. exists [], f, fs, tv. repeat split; try assumption.
      intros g [].
    + destruct IH as [[Hall Hnone] | (pre & f' & post & tv & -> & Hpre & Hf' & Hres)].
      * left; split; [| assumption].
        intros g [<- | Hg]; [assumption | apply Hall; assumption].
      * right. exists (f :: pre), f', post, tv. repeat split; try assumption.
        intros g [<- | Hg]; [assumption | apply Hpre; assumption].
Qed.

End LayoutOrder.

(** C8, as amended: [parseTime] of either variant returns the time of the
    first layout of its list, in the order of the list, that parses the
    string; when no layout parses and the string is a signed decimal
    integer, it returns the time that many ticks after midnight (seconds
    for [Time], milliseconds for [Time64]); otherwise it fails with an
    error whose text is "cannot parse time value: " for [Time], and
    "cannot parse time64 value: " for [Time64], followed by the string. *)
Theorem C8_parseTime_ordered_fallback
    (timeParse : string -> string -> option Clock)
    (c : TimeColumn.Time) (c64 : Time64Column.Time64) (value : string) :
  ((exists pre f post tv,
      TimeColumn.formats = (pre ++ f :: post)%list
      /\ (forall g, List.In g pre -> timeParse g value = None)
      /\ timeParse f value = Some tv
      /\ TimeColumn.parseTime timeParse c value
         = Ok (clockToTime tv (TimeColumn.columnZone c)))
   \/ ((forall g, List.In g TimeColumn.formats -> timeParse g value = None)
       /\ exists seconds,
            Strconv.ParseInt value 64 = Ok seconds
            /\ TimeColumn.parseTime timeParse c value
               = Ok (TimeColumn.secondsToTime seconds (TimeColumn.columnZone c)))
   \/ ((forall g, List.In g TimeColumn.formats -> timeParse g value = None)
       /\ isOk (Strconv.ParseInt value 64) = false
       /\ TimeColumn.parseTime timeParse c value
          = Err (Errorf ("cannot parse time value: " ++ value))))
  /\ ((exists pre f post tv,
         Time64Column.formats = (pre ++ f :: post)%list
         /\ (forall g, List.In g pre -> timeParse g value = None)
         /\ timeParse f value = Some tv
         /\ Time64Column.parseTime timeParse c64 value
            = Ok (clockToTime tv (Time64Column.columnZone c64)))
      \/ ((forall g, List.In g Time64Column.formats -> timeParse g value = None)
          /\ exists milliseconds,
               Strconv.ParseInt value 64 = Ok milliseconds
               /\ Time64Column.parseTime timeParse c64 value
                  = Ok (Time64Column.millisecondsToTime milliseconds
                          (Time64Column.columnZone c64)))
      \/ ((forall g, List.In g Time64Column.formats -> timeParse g value = None)
          /\ isOk (Strconv.ParseInt value 64) = false
          /\ Time64Column.parseTime timeParse c64 value
             = Err (Errorf ("cannot parse time64 value: " ++ value)))).
Proof.
  split.
  - unfold TimeColumn.parseTime.
    destruct (Time_tryFormats_first timeParse c value TimeColumn.formats)
      as [[Hall Hnone] | (pre & f & post & tv & Heq & Hpre & Hf & Hres)].
    + rewrite Hnone. right.
      destruct (Strconv.ParseInt value 64) as [seconds | err |] eqn:Hint.
      * left. split; [assumption |]. exists seconds. split; reflexivity.
      * right. repeat split; assumption || reflexivity.
      * right. repeat split; assumption || reflexivity.
    + rewrite Hres. left. exists pre, f, post, tv. repeat split; assumption.
  - unfold Time64Column.parseTime.
    destruct (Time64_tryFormats_first timeParse c64 value Time64Column.formats)
      as [[Hall Hnone] | (pre & f & post & tv & Heq & Hpre & Hf & Hres)].
    + rewrite Hnone. right.
      destruct (Strconv.ParseInt value 64) as [milliseconds | err |] eqn:Hint.
      * left. split; [assumption |]. exists milliseconds. split; reflexivity.
      * right. repeat split; assumption || reflexivity.
      * right. repeat split; assumption || reflexivity.
    + rewrite Hres. left. exists pre, f, post, tv. repeat split; assumption.
Qed.

(** C8 as stated fails for [Time64]: the string "bad", which no layout
    parses and which is no integer, is rejected with the text "cannot
    parse time64 value: bad", not "cannot parse time value: bad". *)
Lemma C8_counterexample :
  Forall (fun g => GoTime.Parse g "bad" = None) Time64Column.formats
  /\ isOk (Strconv.ParseInt "bad" 64) = false
  /\ Time64Column.parseTime GoTime.Parse Fixtures.emptyTime64 "bad"
     = Err (Errorf "cannot parse time64 value: bad")
  /\ Time64Column.parseTime GoTime.Parse Fixtures.emptyTime64 "bad"
     <> Err (Errorf ("cannot parse time value: " ++ "bad")).
Proof.
  split; [repeat constructor |].
  split; [reflexivity |].
  split; [vm_compute; reflexivity | vm_compute; discriminate].
Qed.

(** ** Destinations that cannot be scanned into (C9) *)

(** C9: for a destination that has no case in [ScanRow] and does not
    implement [sql.Scanner], [ScanRow] of either variant returns the
    conversion error of operation "ScanRow" that names the type of the
    destination, for every column and row index; it does not succeed. *)
Theorem C9_unsupported_destination
    (c : TimeColumn.Time) (c64 : Time64Column.Time64)
    (dest dest64 : Dest) (i : Z) :
  supportedByTime dest = false ->
  implementsScanner dest = false ->
  supportedByTime64 dest64 = false ->
  implementsScanner dest64 = false ->
  TimeColumn.ScanRow c dest i
  = Err (ColumnConverterError "ScanRow" (destTypeName dest) "Time" "")
  /\ isOk (TimeColumn.ScanRow c dest i) = false
  /\ Time64Column.ScanRow c64 dest64 i
     = Err (ColumnConverterError "ScanRow" (destTypeName dest64) "Time64" "")
  /\ isOk (Time64Column.ScanRow c64 dest64 i) = false.
Proof.
  intros Hs Hn Hs64 Hn64.
  destruct dest; simpl in Hs, Hn; try discriminate.
  destruct dest64; simpl in Hs64, Hn64; try discriminate;
    repeat split; reflexivity.
Qed.

Lemma C9_unsupported_destination_witness :
  TimeColumn.ScanRow Fixtures.emptyTime (DOther "*float64") 0
  = Err (ColumnConverterError "ScanRow" "*float64" "Time" "")
  /\ isOk (TimeColumn.ScanRow Fixtures.emptyTime (DOther "*float64") 0) = false
  /\ Time64Column.ScanRow Fixtures.emptyTime64 DString 0
     = Err (ColumnConverterError "ScanRow" "*string" "Time64" "")
  /\ isOk (Time64Column.ScanRow Fixtures.emptyTime64 DString 0) = false.
Proof.
  apply (C9_unsupported_destination Fixtures.emptyTime Fixtures.emptyTime64
           (DOther "*float64") DString 0); reflexivity.
Defined.

(** * Further properties of the two columns *)

(** ** The string functions the descriptor parsers rely on *)

Lemma HasPrefix_app (p s : string) : Strings.HasPrefix (p ++ s) p = true.
Proof.
  induction p as [| a p IH]; simpl; [destruct s; reflexivity |].
  rewrite Ascii.eqb_refl, IH. reflexivity.
Qed.

Lemma TrimPrefix_app (p s : string) : Strings.TrimPrefix (p ++ s) p = s.
Proof.
  unfold Strings.TrimPrefix. rewrite HasPrefix_app.
  induction p as [| a p IH]; simpl; [destruct s; reflexivity | exact IH].
Qed.

Lemma length_string_app (s1 s2 : string) :
  String.length (s1 ++ s2) = (String.length s1 + String.length s2)%nat.
Proof.
  induction s1 as [| a s1 IH]; simpl; [reflexivity | rewrite IH; reflexivity].
Qed.

Lemma substring_skip (s suf : string) (n : nat) :
  substring (String.length s) n (s ++ suf) = substring 0 n suf.
Proof.
  induction s as [| a s IH]; simpl; [reflexivity | exact IH].
Qed.

Lemma substring_all (s : string) : substring 0 (String.length s) s = s.
Proof.
  induction s as [| a s IH]; simpl; [reflexivity | rewrite IH; reflexivity].
Qed.

Lemma substring_head (s suf : string) :
  substring 0 (String.length s) (s ++ suf) = s.
Proof.
  induction s as [| a s IH]; simpl.
  - destruct suf; reflexivity.
  - rewrite IH. reflexivity.
Qed.

Lemma TrimSuffix_app (s suf : string) : Strings.TrimSuffix (s ++ suf) suf = s.
Proof.
  unfold Strings.TrimSuffix, Strings.HasSuffix.
  rewrite length_string_app.
  replace (String.length s + String.length suf - String.length suf)%nat
    with (String.length s) by lia.
  rewrite substring_skip, substring_all, String.eqb_refl.
  replace (String.length suf <=? String.length s + String.length suf)%nat
    with true by (symmetry; apply Nat.leb_le; lia).
  simpl. apply substring_head.
Qed.

Lemma countChar_app (s1 s2 : string) (sep : ascii) :
  countChar (s1 ++ s2) sep = (countChar s1 sep + countChar s2 sep)%nat.
Proof.
  induction s1 as [| a s1 IH]; simpl; [reflexivity | rewrite IH; lia].
Qed.

Lemma ContainsChar_countChar (s : string) (sep : ascii) :
  Strings.ContainsChar s sep = negb (countChar s sep =? 0)%nat.
Proof.
  induction s as [| a s IH]; simpl; [reflexivity |].
  destruct (Ascii.eqb a sep); simpl; [reflexivity | exact IH].
Qed.

Lemma SplitChar_length (s : string) (sep : ascii) :
  List.length (Strings.SplitChar s sep) = S (countChar s sep).
Proof.
  induction s as [| a s IH]; simpl; [reflexivity |].
  destruct (Ascii.eqb a sep); simpl; [rewrite IH; reflexivity |].
  destruct (Strings.SplitChar s sep) as [| piece rest]; simpl in *;
    [discriminate | exact IH].
Qed.

Lemma SplitChar_no_sep (s : string) (sep : ascii) :
  countChar s sep = O -> Strings.SplitChar s sep = [s].
Proof.
  induction s as [| a s IH]; simpl; [reflexivity |].
  destruct (Ascii.eqb a sep); simpl; [discriminate |].
  intros H. rewrite (IH H). reflexivity.
Qed.

Lemma SplitChar_first (a b : string) (sep : ascii) :
  countChar a sep = O ->
  Strings.SplitChar (a ++ String sep b) sep = a :: Strings.SplitChar b sep.
Proof.
  induction a as [| x a IH]; simpl.
  - rewrite Ascii.eqb_refl. reflexivity.
  - destruct (Ascii.eqb x sep); simpl; [discriminate |].
    intros H. rewrite (IH H). reflexivity.
Qed.

(** ** Descriptors the parsers accept and reject *)

(** X1: [Time] is accepted with the default timezone, and [Time('zone')]
    for every zone name: the name between the quotes is looked up in the
    registry, the zone found becomes the column's timezone, and a name the
    registry does not know is returned as its error. *)
Theorem X1_Time_parse_accepts
    (LoadLocation : string -> option Location)
    (c : TimeColumn.Time) (zone : string) (tz : option Location) :
  TimeColumn.parse LoadLocation c "Time" tz
  = (TimeColumn.setTimezone (TimeColumn.setChType c "Time") tz, Ok tt)
  /\ TimeColumn.parse LoadLocation c ("Time('" ++ zone ++ "')") tz
     = match LoadLocation zone with
       | Some loc =>
           (TimeColumn.setTimezone
              (TimeColumn.setChType c ("Time('" ++ zone ++ "')")) (Some loc),
            Ok tt)
       | None =>
           (TimeColumn.setChType c ("Time('" ++ zone ++ "')"),
            Err (LoadLocationError zone))
       end.
Proof.
  split; [reflexivity |].
  unfold TimeColumn.parse.
  rewrite (HasPrefix_app "Time('" (zone ++ "')")).
  rewrite (TrimPrefix_app "Time('" (zone ++ "')")), TrimSuffix_app.
  destruct (LoadLocation zone); reflexivity.
Qed.

Ltac time64_with_zone zone :=
  unfold Time64Column.parse;
  match goal with
  | |- context [Strings.SplitChar (String ?a0 (String ?a1 (String ?a2 (String ?a3
         (String ?a4 (String ?a5 (String ?a6 (String ?d (String "," ?b)))))))))
         ","%char] =>
      let H := fresh "Hsplit" in
      pose proof (SplitChar_first
                    (String a0 (String a1 (String a2 (String a3
                       (String a4 (String a5 (String a6 (String d EmptyString))))))))
                    b ","%char eq_refl) as H;
      cbn [append] in H; rewrite H; clear H;
      rewrite (SplitChar_no_sep b ","%char)
        by (simpl; rewrite countChar_app; simpl; lia)
  end;
  cbv beta iota zeta;
  let H := fresh "Htrim" in
  pose proof (TrimPrefix_app " '" (zone ++ "')")) as H;
  cbn [append] in H; rewrite H; clear H;
  rewrite TrimSuffix_app;
  destruct (_ zone); reflexivity.

(** X2: [Time64(p)] with a digit [p] from 0 to 9 is accepted with precision
    [p] and the default timezone; [Time64(p, 'zone')], for a zone name
    without a comma, is accepted with precision [p] and the zone the
    registry gives for the name, and fails with the registry's error when
    the name is unknown. *)
Theorem X2_Time64_parse_accepts
    (LoadLocation : string -> option Location)
    (c : Time64Column.Time64) (p : Z) (zone : string) (tz : option Location) :
  0 <= p <= 9 ->
  countChar zone "," = O ->
  Time64Column.parse LoadLocation c ("Time64(" ++ digitString p ++ ")") tz
  = (Time64Column.setTimezone
       (Time64Column.setPrecision
          (Time64Column.setChType c ("Time64(" ++ digitString p ++ ")")) p) tz,
     Ok tt)
  /\ Time64Column.parse LoadLocation c
       ("Time64(" ++ digitString p ++ ", '" ++ zone ++ "')") tz
     = match LoadLocation zone with
       | Some loc =>
           (Time64Column.setTimezone
              (Time64Column.setPrecision
                 (Time64Column.setChType c
                    ("Time64(" ++ digitString p ++ ", '" ++ zone ++ "')")) p)
              (Some loc),
            Ok tt)
       | None =>
           (Time64Column.setPrecision
              (Time64Column.setChType c
                 ("Time64(" ++ digitString p ++ ", '" ++ zone ++ "')")) p,
            Err (LoadLocationError zone))
       end.
Proof.
  intros Hp Hzone.
  assert (Hc : p = 0 \/ p = 1 \/ p = 2 \/ p = 3 \/ p = 4 \/ p = 5 \/ p = 6
               \/ p = 7 \/ p = 8 \/ p = 9) by lia.
  destruct Hc as [-> | [-> | [-> | [-> | [-> | [-> | [-> | [-> | [-> | ->]]]]]]]]];
    (split; [vm_compute; reflexivity |]);
    match goal with
    | |- context [digitString ?k] =>
        let d := eval vm_compute in (digitString k) in
        change (digitString k) with d
    end;
    cbn [append];
    time64_with_zone zone.
Qed.

Lemma X2_Time64_parse_accepts_witness :
  Time64Column.parse Fixtures.utcRegistry Fixtures.emptyTime64
    ("Time64(" ++ digitString 6 ++ ")") None
  = (Time64Column.setTimezone
       (Time64Column.setPrecision
          (Time64Column.setChType Fixtures.emptyTime64
             ("Time64(" ++ digitString 6 ++ ")")) 6) None,
     Ok tt)
  /\ Time64Column.parse Fixtures.utcRegistry Fixtures.emptyTime64
       ("Time64(" ++ digitString 6 ++ ", '" ++ "UTC" ++ "')") None
     = match Fixtures.utcRegistry "UTC" with
       | Some loc =>
           (Time64Column.setTimezone
              (Time64Column.setPrecision
                 (Time64Column.setChType Fixtures.emptyTime64
                    ("Time64(" ++ digitString 6 ++ ", '" ++ "UTC" ++ "')")) 6)
              (Some loc),
            Ok tt)
       | None =>
           (Time64Column.setPrecision
              (Time64Column.setChType Fixtures.emptyTime64
                 ("Time64(" ++ digitString 6 ++ ", '" ++ "UTC" ++ "')")) 6,
            Err (LoadLocationError "UTC"))
       end.
Proof.
  apply (X2_Time64_parse_accepts Fixtures.utcRegistry Fixtures.emptyTime64
           6 "UTC" None); [lia | reflexivity].
Defined.

(** X3: which descriptors are turned down as unsupported.  [Time64.parse]
    answers with [UnsupportedColumnTypeError] exactly when the string does
    not begin with [Time64(] or holds two commas or more; [Time.parse]
    exactly when the string is neither [Time] nor begins with [Time(']. *)
Theorem X3_unsupported_descriptors
    (LoadLocation : string -> option Location)
    (c : TimeColumn.Time) (c64 : Time64Column.Time64)
    (t : string) (tz : option Location) :
  (snd (Time64Column.parse LoadLocation c64 t tz)
   = Err (UnsupportedColumnTypeError t)
   <-> Strings.HasPrefix t "Time64(" = false \/ (2 <= countChar t ",")%nat)
  /\ (snd (TimeColumn.parse LoadLocation c t tz)
      = Err (UnsupportedColumnTypeError t)
      <-> Strings.HasPrefix t "Time('" = false /\ String.eqb t "Time" = false).
Proof.
  split.
  - unfold Time64Column.parse.
    destruct (Strings.HasPrefix t "Time64(") eqn:Hp.
    2: { simpl. split; [intros _; left; reflexivity | reflexivity]. }
    rewrite ContainsChar_countChar.
    pose proof (SplitChar_length t ",") as Hlen.
    destruct (countChar t ",") as [| [| n]] eqn:Hcount; simpl negb; cbv iota.
    + split.
      * destruct (Strconv.ParseInt _ 8) as [precision | err |] eqn:Hint; simpl;
          try discriminate.
        intros H. apply ParseInt_error in Hint. destruct Hint as [r ->].
        discriminate.
      * intros [H | H]; [discriminate | lia].
    + destruct (Strings.SplitChar t ",") as [| part0 [| part1 [| part2 parts]]];
        simpl in Hlen; try discriminate.
      split.
      * destruct (Strconv.ParseInt _ 8) as [precision | err |] eqn:Hint; simpl.
        -- destruct (LoadLocation _); simpl; discriminate.
        -- intros H. apply ParseInt_error in Hint. destruct Hint as [r ->].
           discriminate.
        -- discriminate.
      * intros [H | H]; [discriminate | lia].
    + destruct (Strings.SplitChar t ",") as [| part0 [| part1 [| part2 parts]]];
        simpl in Hlen; try discriminate.
      split; [intros _; right; lia | reflexivity].
  - unfold TimeColumn.parse.
    destruct (Strings.HasPrefix t "Time('") eqn:Hp.
    + split.
      * destruct (LoadLocation _); simpl; discriminate.
      * intros [H _]; discriminate.
    + destruct (String.eqb t "Time") eqn:Heq; simpl.
      * split; [discriminate | intros [_ H]; discriminate].
      * split; [intros _; split; reflexivity | reflexivity].
Qed.

(** ** What [AppendRow] and [Append] do to the column: [Time] *)

Lemma Time_appendTimes_app (a b : list Instant) :
  forall c : TimeColumn.Time,
    TimeColumn.appendTimes (TimeColumn.appendTimes c a) b
    = TimeColumn.appendTimes c (a ++ b).
Proof.
  induction a as [| x a IH]; intros c; simpl; [reflexivity | apply IH].
Qed.

Lemma Time_Rows_push (c : TimeColumn.Time) (t : Instant) :
  TimeColumn.Rows (TimeColumn.push c t) = TimeColumn.Rows c + 1.
Proof.
  unfold TimeColumn.Rows, TimeColumn.push, ColTime_Rows, ColTime_Append; simpl.
  rewrite length_app; simpl. lia.
Qed.

(** [AppendRow] appends exactly one row when it succeeds and leaves the
    column as it was when it returns an error or panics. *)
Lemma Time_AppendRow_effect (timeParse : string -> string -> option Clock)
    (v : HostValue) :
  forall c : TimeColumn.Time,
    match TimeColumn.AppendRow timeParse c v with
    | (c', Ok _) => exists t, c' = TimeColumn.push c t
    | (c', _) => c' = c
    end.
Proof.
  induction v; intros c; simpl; try reflexivity; try (eexists; reflexivity).
  - destruct v; eexists; reflexivity.
  - destruct v; eexists; reflexivity.
  - destruct (Valid v); eexists; reflexivity.
  - destruct v as [x |]; [destruct (Valid x); eexists; reflexivity | reflexivity].
  - destruct (TimeColumn.parseTime timeParse c v);
      [eexists; reflexivity | reflexivity | reflexivity].
  - apply IHv.
Qed.

Lemma Time_AppendRow_pushes (timeParse : string -> string -> option Clock)
    (c : TimeColumn.Time) (v : HostValue) :
  exists ts, fst (TimeColumn.AppendRow timeParse c v) = TimeColumn.appendTimes c ts.
Proof.
  pose proof (Time_AppendRow_effect timeParse v c) as H.
  destruct (TimeColumn.AppendRow timeParse c v) as [c' [u | e |]]; simpl.
  - destruct H as [t ->]. exists [t]. reflexivity.
  - subst. exists []. reflexivity.
  - subst. exists []. reflexivity.
Qed.

Lemma Time_appendRows_pushes (timeParse : string -> string -> option Clock)
    (elems : list HostValue) :
  forall c : TimeColumn.Time,
    exists ts, appendRows timeParse c elems = TimeColumn.appendTimes c ts.
Proof.
  induction elems as [| x elems IH]; intros c; simpl.
  - exists []. reflexivity.
  - destruct (Time_AppendRow_pushes timeParse c x) as [ts1 H1].
    destruct (IH (fst (TimeColumn.AppendRow timeParse c x))) as [ts2 H2].
    exists (ts1 ++ ts2)%list.
    unfold appendRows in *. rewrite H2, H1. apply Time_appendTimes_app.
Qed.

(** The loops of [Append] are [AppendRow] run over the elements in
    order. *)
Lemma Time_appendInt64s_rows (timeParse : string -> string -> option Clock)
    (v : list Z) :
  forall c : TimeColumn.Time,
    TimeColumn.appendInt64s c v = appendRows timeParse c (map VInt64 v)
    /\ TimeColumn.Rows (TimeColumn.appendInt64s c v)
       = TimeColumn.Rows c + Z.of_nat (List.length v).
Proof.
  induction v as [| x v IH]; intros c; [split; simpl; [reflexivity | lia] |].
  destruct (IH (TimeColumn.push c (TimeColumn.secondsToTime x UTC))) as [H1 H2].
  split; [exact H1 |].
  cbn [TimeColumn.appendInt64s List.length]. rewrite H2, Time_Rows_push. lia.
Qed.

Lemma Time_appendTimes_rows (timeParse : string -> string -> option Clock)
    (v : list Instant) :
  forall c : TimeColumn.Time,
    TimeColumn.appendTimes c v = appendRows timeParse c (map VTime v)
    /\ TimeColumn.Rows (TimeColumn.appendTimes c v)
       = TimeColumn.Rows c + Z.of_nat (List.length v).
Proof.
  induction v as [| x v IH]; intros c; [split; simpl; [reflexivity | lia] |].
  destruct (IH (TimeColumn.push c x)) as [H1 H2].
  split; [exact H1 |].
  cbn [TimeColumn.appendTimes List.length]. rewrite H2, Time_Rows_push. lia.
Qed.

Lemma Time_appendInt64Ptrs_rows (timeParse : string -> string -> option Clock)
    (v : list (option Z)) :
  forall c : TimeColumn.Time,
    TimeColumn.appendInt64Ptrs c v
    = (appendRows timeParse c (map VInt64Ptr v), map nilIndicator v)
    /\ TimeColumn.Rows (fst (TimeColumn.appendInt64Ptrs c v))
       = TimeColumn.Rows c + Z.of_nat (List.length v).
Proof.
  induction v as [| x v IH]; intros c; [split; simpl; [reflexivity | lia] |].
  destruct x as [s |]; cbn [TimeColumn.appendInt64Ptrs List.length].
  - destruct (IH (TimeColumn.push c (TimeColumn.secondsToTime s UTC))) as [H1 H2].
    rewrite H1 in *. simpl in *. split; [reflexivity |].
    rewrite H2, Time_Rows_push. lia.
  - destruct (IH (TimeColumn.push c zeroTime)) as [H1 H2].
    rewrite H1 in *. simpl in *. split; [reflexivity |].
    rewrite H2, Time_Rows_push. lia.
Qed.

Lemma Time_appendTimePtrs_rows (timeParse : string -> string -> option Clock)
    (v : list (option Instant)) :
  forall c : TimeColumn.Time,
    TimeColumn.appendTimePtrs c v
    = (appendRows timeParse c (map VTimePtr v), map nilIndicator v)
    /\ TimeColumn.Rows (fst (TimeColumn.appendTimePtrs c v))
       = TimeColumn.Rows c + Z.of_nat (List.length v).
Proof.
  induction v as [| x v IH]; intros c; [split; simpl; [reflexivity | lia] |].
  destruct x as [s |]; cbn [TimeColumn.appendTimePtrs List.length].
  - destruct (IH (TimeColumn.push c s)) as [H1 H2].
    rewrite H1 in *. simpl in *. split; [reflexivity |].
    rewrite H2, Time_Rows_push. lia.
  - destruct (IH (TimeColumn.push c zeroTime)) as [H1 H2].
    rewrite H1 in *. simpl in *. split; [reflexivity |].
    rewrite H2, Time_Rows_push. lia.
Qed.

Lemma Time_appendNullTimes_rows (timeParse : string -> string -> option Clock)
    (v : list NullTime) :
  forall c : TimeColumn.Time,
    TimeColumn.appendNullTimes timeParse c v
    = (appendRows timeParse c (map VNullTime v), Ok (repeat 0 (List.length v)))
    /\ TimeColumn.Rows (fst (TimeColumn.appendNullTimes timeParse c v))
       = TimeColumn.Rows c + Z.of_nat (List.length v).
Proof.
  induction v as [| x v IH]; intros c; [split; simpl; [reflexivity | lia] |].
  cbn [TimeColumn.appendNullTimes TimeColumn.AppendRow List.length map
       appendRows fold_left].
  destruct (Valid x); cbn [fst].
  - destruct (IH (TimeColumn.push c (ntTime x))) as [H1 H2].
    rewrite H1 in *. simpl in *. split; [reflexivity |].
    rewrite H2, Time_Rows_push. lia.
  - destruct (IH (TimeColumn.push c zeroTime)) as [H1 H2].
    rewrite H1 in *. simpl in *. split; [reflexivity |].
    rewrite H2, Time_Rows_push. lia.
Qed.

Lemma Time_appendNullTimePtrs_rows (timeParse : string -> string -> option Clock)
    (v : list (option NullTime)) :
  forall (c c' : TimeColumn.Time) (nulls : list Z),
    TimeColumn.appendNullTimePtrs timeParse c v = (c', Ok nulls) ->
    c' = appendRows timeParse c (map VNullTimePtr v)
    /\ nulls = map nilIndicator v
    /\ TimeColumn.Rows c' = TimeColumn.Rows c + Z.of_nat (List.length v).
Proof.
  induction v as [| x v IH]; intros c c' nulls H.
  - simpl in H. inversion H; subst. repeat split. simpl; lia.
  - cbn [TimeColumn.appendNullTimePtrs TimeColumn.AppendRow] in H.
    cbn [map appendRows fold_left List.length TimeColumn.AppendRow].
    destruct x as [x |]; [| discriminate].
    destruct (Valid x); cbn [fst] in *.
    + destruct (TimeColumn.appendNullTimePtrs timeParse
                  (TimeColumn.push c (ntTime x)) v) as [c2 [n2 | e |]] eqn:Hrest;
        inversion H; subst.
      destruct (IH _ _ _ Hrest) as (H1 & H2 & H3).
      repeat split; [exact H1 | rewrite H2; reflexivity |].
      rewrite H3, Time_Rows_push. lia.
    + destruct (TimeColumn.appendNullTimePtrs timeParse
                  (TimeColumn.push c zeroTime) v) as [c2 [n2 | e |]] eqn:Hrest;
        inversion H; subst.
      destruct (IH _ _ _ Hrest) as (H1 & H2 & H3).
      repeat split; [exact H1 | rewrite H2; reflexivity |].
      rewrite H3, Time_Rows_push. lia.
Qed.

Lemma Time_appendNullTimePtrs_nil (timeParse : string -> string -> option Clock)
    (pre : list NullTime) (post : list (option NullTime)) :
  forall c : TimeColumn.Time,
    TimeColumn.appendNullTimePtrs timeParse c (map Some pre ++ None :: post)
    = (appendRows timeParse c (map VNullTime pre), Panic).
Proof.
  induction pre as [| x pre IH]; intros c; [reflexivity |].
  cbn [map app TimeColumn.appendNullTimePtrs TimeColumn.AppendRow
       appendRows fold_left].
  destruct (Valid x); cbn [fst]; rewrite IH; reflexivity.
Qed.

Lemma Time_appendStrings_rows (timeParse : string -> string -> option Clock)
    (v : list string) :
  forall (c c' : TimeColumn.Time) (u : unit),
    TimeColumn.appendStrings timeParse c v = (c', Ok u) ->
    c' = appendRows timeParse c (map VString v)
    /\ TimeColumn.Rows c' = TimeColumn.Rows c + Z.of_nat (List.length v).
Proof.
  induction v as [| s v IH]; intros c c' u H.
  - simpl in H. inversion H; subst. split; [reflexivity | simpl; lia].
  - cbn [TimeColumn.appendStrings] in H.
    cbn [map appendRows fold_left List.length TimeColumn.AppendRow].
    destruct (TimeColumn.parseTime timeParse c s) as [value | e |];
      try discriminate.
    destruct (IH _ _ _ H) as [H1 H2]. split; [exact H1 |].
    rewrite H2, Time_Rows_push. lia.
Qed.

(** ** What [AppendRow] and [Append] do to the column: [Time64] *)

Lemma Time64_appendTimes_app (a b : list Instant) :
  forall c : Time64Column.Time64,
    Time64Column.appendTimes (Time64Column.appendTimes c a) b
    = Time64Column.appendTimes c (a ++ b).
Proof.
  induction a as [| x a IH]; intros c; simpl; [reflexivity | apply IH].
Qed.

Lemma Time64_Rows_push (c : Time64Column.Time64) (t : Instant) :
  Time64Column.Rows (Time64Column.push c t) = Time64Column.Rows c + 1.
Proof.
  unfold Time64Column.Rows, Time64Column.push, ColTime64_Rows, ColTime64_Append; simpl.
  rewrite length_app; simpl. lia.
Qed.

(** [AppendRow] appends exactly one row when it succeeds and leaves the
    column as it was when it returns an error or panics. *)
Lemma Time64_AppendRow_effect (timeParse : string -> string -> option Clock)
    (v : HostValue) :
  forall c : Time64Column.Time64,
    match Time64Column.AppendRow timeParse c v with
    | (c', Ok _) => exists t, c' = Time64Column.push c t
    | (c', _) => c' = c
    end.
Proof.
  induction v; intros c; simpl; try reflexivity; try (eexists; reflexivity).
  - destruct v; eexists; reflexivity.
  - destruct v; eexists; reflexivity.
  - destruct (Valid v); eexists; reflexivity.
  - destruct v as [x |]; [destruct (Valid x); eexists; reflexivity | reflexivity].
  - destruct (Time64Column.parseTime timeParse c v);
      [eexists; reflexivity | reflexivity | reflexivity].
  - apply IHv.
Qed.

Lemma Time64_AppendRow_pushes (timeParse : string -> string -> option Clock)
    (c : Time64Column.Time64) (v : HostValue) :
  exists ts, fst (Time64Column.AppendRow timeParse c v) = Time64Column.appendTimes c ts.
Proof.
  pose proof (Time64_AppendRow_effect timeParse v c) as H.
  destruct (Time64Column.AppendRow timeParse c v) as [c' [u | e |]]; simpl.
  - destruct H as [t ->]. exists [t]. reflexivity.
  - subst. exists []. reflexivity.
  - subst. exists []. reflexivity.
Qed.

Lemma Time64_appendRows_pushes (timeParse : string -> string -> option Clock)
    (elems : list HostValue) :
  forall c : Time64Column.Time64,
    exists ts, appendRows64 timeParse c elems = Time64Column.appendTimes c ts.
Proof.
  induction elems as [| x elems IH]; intros c; simpl.
  - exists []. reflexivity.
  - destruct (Time64_AppendRow_pushes timeParse c x) as [ts1 H1].
    destruct (IH (fst (Time64Column.AppendRow timeParse c x))) as [ts2 H2].
    exists (ts1 ++ ts2)%list.
    unfold appendRows64 in *. rewrite H2, H1. apply Time64_appendTimes_app.
Qed.

(** The loops of [Append] are [AppendRow] run over the elements in
    order. *)
Lemma Time64_appendInt64s_rows (timeParse : string -> string -> option Clock)
    (v : list Z) :
  forall c : Time64Column.Time64,
    Time64Column.appendInt64s c v = appendRows64 timeParse c (map VInt64 v)
    /\ Time64Column.Rows (Time64Column.appendInt64s c v)
       = Time64Column.Rows c + Z.of_nat (List.length v).
Proof.
  induction v as [| x v IH]; intros c; [split; simpl; [reflexivity | lia] |].
  destruct (IH (Time64Column.push c (Time64Column.millisecondsToTime x UTC))) as [H1 H2].
  split; [exact H1 |].
  cbn [Time64Column.appendInt64s List.length]. rewrite H2, Time64_Rows_push. lia.
Qed.

Lemma Time64_appendTimes_rows (timeParse : string -> string -> option Clock)
    (v : list Instant) :
  forall c : Time64Column.Time64,
    Time64Column.appendTimes c v = appendRows64 timeParse c (map VTime v)
    /\ Time64Column.Rows (Time64Column.appendTimes c v)
       = Time64Column.Rows c + Z.of_nat (List.length v).
Proof.
  induction v as [| x v IH]; intros c; [split; simpl; [reflexivity | lia] |].
  destruct (IH (Time64Column.push c x)) as [H1 H2].
  split; [exact H1 |].
  cbn [Time64Column.appendTimes List.length]. rewrite H2, Time64_Rows_push. lia.
Qed.

Lemma Time64_appendInt64Ptrs_rows (timeParse : string -> string -> option Clock)
    (v : list (option Z)) :
  forall c : Time64Column.Time64,
    Time64Column.appendInt64Ptrs c v
    = (appendRows64 timeParse c (map VInt64Ptr v), map nilIndicator v)
    /\ Time64Column.Rows (fst (Time64Column.appendInt64Ptrs c v))
       = Time64Column.Rows c + Z.of_nat (List.length v).
Proof.
  induction v as [| x v IH]; intros c; [split; simpl; [reflexivity | lia] |].
  destruct x as [s |]; cbn [Time64Column.appendInt64Ptrs List.length].
  - destruct (IH (Time64Column.push c (Time64Column.millisecondsToTime s UTC))) as [H1 H2].
    rewrite H1 in *. simpl in *. split; [reflexivity |].
    rewrite H2, Time64_Rows_push. lia.
  - destruct (IH (Time64Column.push c zeroTime)) as [H1 H2].
    rewrite H1 in *. simpl in *. split; [reflexivity |].
    rewrite H2, Time64_Rows_push. lia.
Qed.

Lemma Time64_appendTimePtrs_rows (timeParse : string -> string -> option Clock)
    (v : list (option Instant)) :
  forall c : Time64Column.Time64,
    Time64Column.appendTimePtrs c v
    = (appendRows64 timeParse c (map VTimePtr v), map nilIndicator v)
    /\ Time64Column.Rows (fst (Time64Column.appendTimePtrs c v))
       = Time64Column.Rows c + Z.of_nat (List.length v).
Proof.
  induction v as [| x v IH]; intros c; [split; simpl; [reflexivity | lia] |].
  destruct x as [s |]; cbn [Time64Column.appendTimePtrs List.length].
  - destruct (IH (Time64Column.push c s)) as [H1 H2].
    rewrite H1 in *. simpl in *. split; [reflexivity |].
    rewrite H2, Time64_Rows_push. lia.
  - destruct (IH (Time64Column.push c zeroTime)) as [H1 H2].
    rewrite H1 in *. simpl in *. split; [reflexivity |].
    rewrite H2, Time64_Rows_push. lia.
Qed.

Lemma Time64_appendNullTimes_rows (timeParse : string -> string -> option Clock)
    (v : list NullTime) :
  forall c : Time64Column.Time64,
    Time64Column.appendNullTimes timeParse c v
    = (appendRows64 timeParse c (map VNullTime v), Ok (repeat 0 (List.length v)))
    /\ Time64Column.Rows (fst (Time64Column.appendNullTimes timeParse c v))
       = Time64Column.Rows c + Z.of_nat (List.length v).
Proof.
  induction v as [| x v IH]; intros c; [split; simpl; [reflexivity | lia] |].
  cbn [Time64Column.appendNullTimes Time64Column.AppendRow List.length map
       appendRows64 fold_left].
  destruct (Valid x); cbn [fst].
  - destruct (IH (Time64Column.push c (ntTime x))) as [H1 H2].
    rewrite H1 in *. simpl in *. split; [reflexivity |].
    rewrite H2, Time64_Rows_push. lia.
  - destruct (IH (Time64Column.push c zeroTime)) as [H1 H2].
    rewrite H1 in *. simpl in *. split; [reflexivity |].
    rewrite H2, Time64_Rows_push. lia.
Qed.

Lemma Time64_appendNullTimePtrs_rows (timeParse : string -> string -> option Clock)
    (v : list (option NullTime)) :
  forall (c c' : Time64Column.Time64) (nulls : list Z),
    Time64Column.appendNullTimePtrs timeParse c v = (c', Ok nulls) ->
    c' = appendRows64 timeParse c (map VNullTimePtr v)
    /\ nulls = map nilIndicator v
    /\ Time64Column.Rows c' = Time64Column.Rows c + Z.of_nat (List.length v).
Proof.
  induction v as [| x v IH]; intros c c' nulls H.
  - simpl in H. inversion H; subst. repeat split. simpl; lia.
  - cbn [Time64Column.appendNullTimePtrs Time64Column.AppendRow] in H.
    cbn [map appendRows64 fold_left List.length Time64Column.AppendRow].
    destruct x as [x |]; [| discriminate].
    destruct (Valid x); cbn [fst] in *.
    + destruct (Time64Column.appendNullTimePtrs timeParse
                  (Time64Column.push c (ntTime x)) v) as [c2 [n2 | e |]] eqn:Hrest;
        inversion H; subst.
      destruct (IH _ _ _ Hrest) as (H1 & H2 & H3).
      repeat split; [exact H1 | rewrite H2; reflexivity |].
      rewrite H3, Time64_Rows_push. lia.
    + destruct (Time64Column.appendNullTimePtrs timeParse
                  (Time64Column.push c zeroTime) v) as [c2 [n2 | e |]] eqn:Hrest;
        inversion H; subst.
      destruct (IH _ _ _ Hrest) as (H1 & H2 & H3).
      repeat split; [exact H1 | rewrite H2; reflexivity |].
      rewrite H3, Time64_Rows_push. lia.
Qed.

Lemma Time64_appendNullTimePtrs_nil (timeParse : string -> string -> option Clock)
    (pre : list NullTime) (post : list (option NullTime)) :
  forall c : Time64Column.Time64,
    Time64Column.appendNullTimePtrs timeParse c (map Some pre ++ None :: post)
    = (appendRows64 timeParse c (map VNullTime pre), Panic).
Proof.
  induction pre as [| x pre IH]; intros c; [reflexivity |].
  cbn [map app Time64Column.appendNullTimePtrs Time64Column.AppendRow
       appendRows64 fold_left].
  destruct (Valid x); cbn [fst]; rewrite IH; reflexivity.
Qed.

Lemma Time64_appendStrings_rows (timeParse : string -> string -> option Clock)
    (v : list string) :
  forall (c c' : Time64Column.Time64) (u : unit),
    Time64Column.appendStrings timeParse c v = (c', Ok u) ->
    c' = appendRows64 timeParse c (map VString v)
    /\ Time64Column.Rows c' = Time64Column.Rows c + Z.of_nat (List.length v).
Proof.
  induction v as [| s v IH]; intros c c' u H.
  - simpl in H. inversion H; subst. split; [reflexivity | simpl; lia].
  - cbn [Time64Column.appendStrings] in H.
    cbn [map appendRows64 fold_left List.length Time64Column.AppendRow].
    destruct (Time64Column.parseTime timeParse c s) as [value | e |];
      try discriminate.
    destruct (IH _ _ _ H) as [H1 H2]. split; [exact H1 |].
    rewrite H2, Time64_Rows_push. lia.
Qed.

Lemma Time_appendStrings_pushes (timeParse : string -> string -> option Clock)
    (v : list string) :
  forall c : TimeColumn.Time,
    exists ts, fst (TimeColumn.appendStrings timeParse c v)
               = TimeColumn.appendTimes c ts.
Proof.
  induction v as [| s v IH]; intros c; simpl; [exists []; reflexivity |].
  destruct (TimeColumn.parseTime timeParse c s) as [value | e |];
    try (exists []; reflexivity).
  destruct (IH (TimeColumn.push c value)) as [ts H].
  exists (value :: ts). exact H.
Qed.

Lemma Time_appendNullTimePtrs_pushes
    (timeParse : string -> string -> option Clock)
    (v : list (option NullTime)) :
  forall c : TimeColumn.Time,
    exists ts, fst (TimeColumn.appendNullTimePtrs timeParse c v)
               = TimeColumn.appendTimes c ts.
Proof.
  induction v as [| x v IH]; intros c; [exists []; reflexivity |].
  cbn [TimeColumn.appendNullTimePtrs TimeColumn.AppendRow].
  destruct x as [x |]; [| exists []; reflexivity].
  destruct (Valid x).
  - destruct (IH (TimeColumn.push c (ntTime x))) as [ts H].
    exists (ntTime x :: ts).
    destruct (TimeColumn.appendNullTimePtrs timeParse
                (TimeColumn.push c (ntTime x)) v) as [c2 [n | e |]]; exact H.
  - destruct (IH (TimeColumn.push c zeroTime)) as [ts H].
    exists (zeroTime :: ts).
    destruct (TimeColumn.appendNullTimePtrs timeParse
                (TimeColumn.push c zeroTime) v) as [c2 [n | e |]]; exact H.
Qed.

(** Whatever [Append] is given and however it ends, the column it leaves
    is the column it found with some instants appended. *)
Lemma Time_Append_pushes (timeParse : string -> string -> option Clock)
    (v : HostValue) :
  forall c : TimeColumn.Time,
    exists ts, fst (TimeColumn.Append timeParse c v) = TimeColumn.appendTimes c ts.
Proof.
  induction v; intros c; cbn [TimeColumn.Append];
    try (exists []; reflexivity);
    try (match goal with x : NullTime |- _ => destruct (Valid x) end;
         exists []; reflexivity);
    try (match goal with
         | x : option NullTime |- _ => destruct x as [x |]; [destruct (Valid x) |]
         end; exists []; reflexivity).
  - rewrite (proj1 (Time_appendInt64s_rows timeParse v c)).
    apply Time_appendRows_pushes.
  - rewrite (proj1 (Time_appendInt64Ptrs_rows timeParse v c)).
    apply Time_appendRows_pushes.
  - exists v. reflexivity.
  - rewrite (proj1 (Time_appendTimePtrs_rows timeParse v c)).
    apply Time_appendRows_pushes.
  - rewrite (proj1 (Time_appendNullTimes_rows timeParse v c)).
    apply Time_appendRows_pushes.
  - apply Time_appendNullTimePtrs_pushes.
  - destruct (Time_appendStrings_pushes timeParse v c) as [ts H].
    exists ts.
    destruct (TimeColumn.appendStrings timeParse c v) as [c2 [u | e |]]; exact H.
  - apply IHv.
Qed.

Lemma Time_appendTimes_descriptor (ts : list Instant) :
  forall c : TimeColumn.Time,
    TimeColumn.chType (TimeColumn.appendTimes c ts) = TimeColumn.chType c
    /\ TimeColumn.timezone (TimeColumn.appendTimes c ts) = TimeColumn.timezone c
    /\ TimeColumn.name (TimeColumn.appendTimes c ts) = TimeColumn.name c.
Proof.
  induction ts as [| t ts IH]; intros c; simpl; [repeat split |].
  destruct (IH (TimeColumn.push c t)) as (H1 & H2 & H3).
  rewrite H1, H2, H3. repeat split.
Qed.

(** A successful [Append] is [AppendRow] run over the elements of the
    batch in order. *)
Lemma Time_Append_success (timeParse : string -> string -> option Clock)
    (v : HostValue) :
  forall (c c' : TimeColumn.Time) (nulls : list Z),
    TimeColumn.Append timeParse c v = (c', Ok nulls) ->
    exists elems,
      batchElements v = Some elems
      /\ c' = appendRows timeParse c elems
      /\ List.length nulls = List.length elems
      /\ TimeColumn.Rows c' = TimeColumn.Rows c + Z.of_nat (List.length elems).
Proof.
  induction v; intros c c' nulls H; cbn [TimeColumn.Append] in H;
    try discriminate;
    try (match goal with x : NullTime |- _ => destruct (Valid x) end;
         discriminate);
    try (match goal with
         | x : option NullTime |- _ => destruct x as [x |]; [destruct (Valid x) |]
         end; discriminate).
  - inversion H; subst. exists (map VInt64 v).
    destruct (Time_appendInt64s_rows timeParse v c) as [H1 H2].
    unfold TimeColumn.makeNulls.
    rewrite repeat_length, length_map. repeat split; assumption.
  - destruct (Time_appendInt64Ptrs_rows timeParse v c) as [H1 H2].
    rewrite H1 in *. inversion H; subst. exists (map VInt64Ptr v).
    rewrite !length_map. repeat split; assumption.
  - inversion H; subst. exists (map VTime v).
    destruct (Time_appendTimes_rows timeParse v c) as [H1 H2].
    unfold TimeColumn.makeNulls.
    rewrite repeat_length, length_map. repeat split; assumption.
  - destruct (Time_appendTimePtrs_rows timeParse v c) as [H1 H2].
    rewrite H1 in *. inversion H; subst. exists (map VTimePtr v).
    rewrite !length_map. repeat split; assumption.
  - destruct (Time_appendNullTimes_rows timeParse v c) as [H1 H2].
    rewrite H1 in *. inversion H; subst. exists (map VNullTime v).
    rewrite repeat_length, length_map. repeat split; assumption.
  - destruct (Time_appendNullTimePtrs_rows timeParse v c c' nulls H)
      as (H1 & H2 & H3).
    exists (map VNullTimePtr v). subst nulls.
    rewrite !length_map. repeat split; assumption.
  - destruct (TimeColumn.appendStrings timeParse c v) as [c2 [u | e |]] eqn:Hs;
      inversion H; subst.
    destruct (Time_appendStrings_rows timeParse v c c' u Hs) as [H1 H2].
    exists (map VString v). unfold TimeColumn.makeNulls.
    rewrite repeat_length, length_map. repeat split; assumption.
  - apply IHv. exact H.
Qed.

Lemma Time64_appendStrings_pushes (timeParse : string -> string -> option Clock)
    (v : list string) :
  forall c : Time64Column.Time64,
    exists ts, fst (Time64Column.appendStrings timeParse c v)
               = Time64Column.appendTimes c ts.
Proof.
  induction v as [| s v IH]; intros c; simpl; [exists []; reflexivity |].
  destruct (Time64Column.parseTime timeParse c s) as [value | e |];
    try (exists []; reflexivity).
  destruct (IH (Time64Column.push c value)) as [ts H].
  exists (value :: ts). exact H.
Qed.

Lemma Time64_appendNullTimePtrs_pushes
    (timeParse : string -> string -> option Clock)
    (v : list (option NullTime)) :
  forall c : Time64Column.Time64,
    exists ts, fst (Time64Column.appendNullTimePtrs timeParse c v)
               = Time64Column.appendTimes c ts.
Proof.
  induction v as [| x v IH]; intros c; [exists []; reflexivity |].
  cbn [Time64Column.appendNullTimePtrs Time64Column.AppendRow].
  destruct x as [x |]; [| exists []; reflexivity].
  destruct (Valid x).
  - destruct (IH (Time64Column.push c (ntTime x))) as [ts H].
    exists (ntTime x :: ts).
    destruct (Time64Column.appendNullTimePtrs timeParse
                (Time64Column.push c (ntTime x)) v) as [c2 [n | e |]]; exact H.
  - destruct (IH (Time64Column.push c zeroTime)) as [ts H].
    exists (zeroTime :: ts).
    destruct (Time64Column.appendNullTimePtrs timeParse
                (Time64Column.push c zeroTime) v) as [c2 [n | e |]]; exact H.
Qed.

(** Whatever [Append] is given and however it ends, the column it leaves
    is the column it found with some instants appended. *)
Lemma Time64_Append_pushes (timeParse : string -> string -> option Clock)
    (v : HostValue) :
  forall c : Time64Column.Time64,
    exists ts, fst (Time64Column.Append timeParse c v) = Time64Column.appendTimes c ts.
Proof.
  induction v; intros c; cbn [Time64Column.Append];
    try (exists []; reflexivity);
    try (match goal with x : NullTime |- _ => destruct (Valid x) end;
         exists []; reflexivity);
    try (match goal with
         | x : option NullTime |- _ => destruct x as [x |]; [destruct (Valid x) |]
         end; exists []; reflexivity).
  - rewrite (proj1 (Time64_appendInt64s_rows timeParse v c)).
    apply Time64_appendRows_pushes.
  - rewrite (proj1 (Time64_appendInt64Ptrs_rows timeParse v c)).
    apply Time64_appendRows_pushes.
  - exists v. reflexivity.
  - rewrite (proj1 (Time64_appendTimePtrs_rows timeParse v c)).
    apply Time64_appendRows_pushes.
  - rewrite (proj1 (Time64_appendNullTimes_rows timeParse v c)).
    apply Time64_appendRows_pushes.
  - apply Time64_appendNullTimePtrs_pushes.
  - destruct (Time64_appendStrings_pushes timeParse v c) as [ts H].
    exists ts.
    destruct (Time64Column.appendStrings timeParse c v) as [c2 [u | e |]]; exact H.
  - apply IHv.
Qed.

Lemma Time64_appendTimes_descriptor (ts : list Instant) :
  forall c : Time64Column.Time64,
    Time64Column.chType (Time64Column.appendTimes c ts) = Time64Column.chType c
    /\ Time64Column.timezone (Time64Column.appendTimes c ts) = Time64Column.timezone c
    /\ Time64Column.name (Time64Column.appendTimes c ts) = Time64Column.name c.
Proof.
  induction ts as [| t ts IH]; intros c; simpl; [repeat split |].
  destruct (IH (Time64Column.push c t)) as (H1 & H2 & H3).
  rewrite H1, H2, H3. repeat split.
Qed.

(** A successful [Append] is [AppendRow] run over the elements of the
    batch in order. *)
Lemma Time64_Append_success (timeParse : string -> string -> option Clock)
    (v : HostValue) :
  forall (c c' : Time64Column.Time64) (nulls : list Z),
    Time64Column.Append timeParse c v = (c', Ok nulls) ->
    exists elems,
      batchElements v = Some elems
      /\ c' = appendRows64 timeParse c elems
      /\ List.length nulls = List.length elems
      /\ Time64Column.Rows c' = Time64Column.Rows c + Z.of_nat (List.length elems).
Proof.
  induction v; intros c c' nulls H; cbn [Time64Column.Append] in H;
    try discriminate;
    try (match goal with x : NullTime |- _ => destruct (Valid x) end;
         discriminate);
    try (match goal with
         | x : option NullTime |- _ => destruct x as [x |]; [destruct (Valid x) |]
         end; discriminate).
  - inversion H; subst. exists (map VInt64 v).
    destruct (Time64_appendInt64s_rows timeParse v c) as [H1 H2].
    unfold Time64Column.makeNulls.
    rewrite repeat_length, length_map. repeat split; assumption.
  - destruct (Time64_appendInt64Ptrs_rows timeParse v c) as [H1 H2].
    rewrite H1 in *. inversion H; subst. exists (map VInt64Ptr v).
    rewrite !length_map. repeat split; assumption.
  - inversion H; subst. exists (map VTime v).
    destruct (Time64_appendTimes_rows timeParse v c) as [H1 H2].
    unfold Time64Column.makeNulls.
    rewrite repeat_length, length_map. repeat split; assumption.
  - destruct (Time64_appendTimePtrs_rows timeParse v c) as [H1 H2].
    rewrite H1 in *. inversion H; subst. exists (map VTimePtr v).
    rewrite !length_map. repeat split; assumption.
  - destruct (Time64_appendNullTimes_rows timeParse v c) as [H1 H2].
    rewrite H1 in *. inversion H; subst. exists (map VNullTime v).
    rewrite repeat_length, length_map. repeat split; assumption.
  - destruct (Time64_appendNullTimePtrs_rows timeParse v c c' nulls H)
      as (H1 & H2 & H3).
    exists (map VNullTimePtr v). subst nulls.
    rewrite !length_map. repeat split; assumption.
  - destruct (Time64Column.appendStrings timeParse c v) as [c2 [u | e |]] eqn:Hs;
      inversion H; subst.
    destruct (Time64_appendStrings_rows timeParse v c c' u Hs) as [H1 H2].
    exists (map VString v). unfold Time64Column.makeNulls.
    rewrite repeat_length, length_map. repeat split; assumption.
  - apply IHv. exact H.
Qed.

Lemma Time64_appendTimes_precision (ts : list Instant) :
  forall c : Time64Column.Time64,
    Time64Column.Precision_ (Time64Column.appendTimes c ts)
    = Time64Column.Precision_ c.
Proof.
  induction ts as [| t ts IH]; intros c; simpl; [reflexivity |].
  rewrite IH. reflexivity.
Qed.

(** ** Single rows and batches *)

(** X4: [AppendRow] of either variant appends exactly one row when it
    succeeds, and leaves the column exactly as it was when it returns an
    error or panics, for every value, also behind a [driver.Valuer]. *)
Theorem X4_AppendRow_one_row_or_nothing
    (timeParse : string -> string -> option Clock)
    (c : TimeColumn.Time) (c64 : Time64Column.Time64) (v : HostValue) :
  match TimeColumn.AppendRow timeParse c v with
  | (c', Ok _) =>
      (exists t, c' = TimeColumn.push c t)
      /\ TimeColumn.Rows c' = TimeColumn.Rows c + 1
  | (c', _) => c' = c
  end
  /\ match Time64Column.AppendRow timeParse c64 v with
     | (c', Ok _) =>
         (exists t, c' = Time64Column.push c64 t)
         /\ Time64Column.Rows c' = Time64Column.Rows c64 + 1
     | (c', _) => c' = c64
     end.
Proof.
  split.
  - pose proof (Time_AppendRow_effect timeParse v c) as H.
    destruct (TimeColumn.AppendRow timeParse c v) as [c' [u | e |]]; try exact H.
    split; [exact H |]. destruct H as [t ->]. apply Time_Rows_push.
  - pose proof (Time64_AppendRow_effect timeParse v c64) as H.
    destruct (Time64Column.AppendRow timeParse c64 v) as [c' [u | e |]];
      try exact H.
    split; [exact H |]. destruct H as [t ->]. apply Time64_Rows_push.
Qed.

(** X5: however [Append] ends (result, error or panic) and whatever it is
    given, it leaves the type string, the timezone and the name of the
    column, and for [Time64] the precision, as they were, and the rows the
    column held before are still there, in place, before any new row. *)
Theorem X5_Append_keeps_descriptor_and_rows
    (timeParse : string -> string -> option Clock)
    (c : TimeColumn.Time) (c64 : Time64Column.Time64) (v : HostValue) :
  (let c' := fst (TimeColumn.Append timeParse c v) in
   TimeColumn.chType c' = TimeColumn.chType c
   /\ TimeColumn.timezone c' = TimeColumn.timezone c
   /\ TimeColumn.name c' = TimeColumn.name c
   /\ exists added,
        Data (TimeColumn.col c') = (Data (TimeColumn.col c) ++ added)%list)
  /\ (let c' := fst (Time64Column.Append timeParse c64 v) in
      Time64Column.chType c' = Time64Column.chType c64
      /\ Time64Column.timezone c' = Time64Column.timezone c64
      /\ Time64Column.name c' = Time64Column.name c64
      /\ Time64Column.Precision_ c' = Time64Column.Precision_ c64
      /\ exists added,
           Data64 (Time64Column.col c')
           = (Data64 (Time64Column.col c64) ++ added)%list).
Proof.
  cbv zeta. split.
  - destruct (Time_Append_pushes timeParse v c) as [ts ->].
    destruct (Time_appendTimes_descriptor ts c) as (H1 & H2 & H3).
    repeat split; try assumption.
    eexists. apply Time_appendTimes_Data.
  - destruct (Time64_Append_pushes timeParse v c64) as [ts ->].
    destruct (Time64_appendTimes_descriptor ts c64) as (H1 & H2 & H3).
    repeat split; try assumption.
    + apply Time64_appendTimes_precision.
    + eexists. apply Time64_appendTimes_Data.
Qed.

(** X6: when [Append] succeeds, its argument was a slice of a handled
    type (possibly behind [driver.Valuer]s), the column it leaves is the
    one [AppendRow] gives when run over the elements in order, there is
    one null indicator per element, and the row count has grown by the
    length of the batch. *)
Theorem X6_Append_is_AppendRow_over_elements
    (timeParse : string -> string -> option Clock)
    (c c' : TimeColumn.Time) (c64 c64' : Time64Column.Time64)
    (v v64 : HostValue) (nulls nulls64 : list Z) :
  TimeColumn.Append timeParse c v = (c', Ok nulls) ->
  Time64Column.Append timeParse c64 v64 = (c64', Ok nulls64) ->
  (exists elems,
     batchElements v = Some elems
     /\ c' = appendRows timeParse c elems
     /\ List.length nulls = List.length elems
     /\ TimeColumn.Rows c' = TimeColumn.Rows c + Z.of_nat (List.length elems))
  /\ (exists elems,
        batchElements v64 = Some elems
        /\ c64' = appendRows64 timeParse c64 elems
        /\ List.length nulls64 = List.length elems
        /\ Time64Column.Rows c64'
           = Time64Column.Rows c64 + Z.of_nat (List.length elems)).
Proof.
  intros H H64. split.
  - eapply Time_Append_success; eassumption.
  - eapply Time64_Append_success; eassumption.
Qed.

Lemma X6_Append_is_AppendRow_over_elements_witness :
  (exists elems,
     batchElements (VStrings ["12:30:45"; "3600"]) = Some elems
     /\ fst (TimeColumn.Append GoTime.Parse Fixtures.emptyTime
               (VStrings ["12:30:45"; "3600"]))
        = appendRows GoTime.Parse Fixtures.emptyTime elems
     /\ List.length [0; 0] = List.length elems
     /\ TimeColumn.Rows (fst (TimeColumn.Append GoTime.Parse Fixtures.emptyTime
                                (VStrings ["12:30:45"; "3600"])))
        = TimeColumn.Rows Fixtures.emptyTime + Z.of_nat (List.length elems))
  /\ (exists elems,
        batchElements (VValuer "myBatch" (VInt64Ptrs [Some 5; None])) = Some elems
        /\ fst (Time64Column.Append GoTime.Parse (Fixtures.time64Of 3)
                  (VValuer "myBatch" (VInt64Ptrs [Some 5; None])))
           = appendRows64 GoTime.Parse (Fixtures.time64Of 3) elems
        /\ List.length [0; 1] = List.length elems
        /\ Time64Column.Rows
             (fst (Time64Column.Append GoTime.Parse (Fixtures.time64Of 3)
                     (VValuer "myBatch" (VInt64Ptrs [Some 5; None]))))
           = Time64Column.Rows (Fixtures.time64Of 3)
             + Z.of_nat (List.length elems)).
Proof.
  apply (X6_Append_is_AppendRow_over_elements GoTime.Parse
           Fixtures.emptyTime _ (Fixtures.time64Of 3) _
           (VStrings ["12:30:45"; "3600"])
           (VValuer "myBatch" (VInt64Ptrs [Some 5; None]))
           [0; 0] [0; 1]); vm_compute; reflexivity.
Defined.

(** X7: in a batch of [*int64] or [*time.Time] the null indicator is 1
    exactly at the positions that hold [nil] and 0 elsewhere; the call
    always succeeds, and a [nil] is stored as the zero instant. *)
Theorem X7_pointer_batches_mark_nil
    (timeParse : string -> string -> option Clock)
    (c : TimeColumn.Time) (c64 : Time64Column.Time64)
    (v : list (option Z)) (w : list (option Instant)) :
  TimeColumn.Append timeParse c (VInt64Ptrs v)
  = (appendRows timeParse c (map VInt64Ptr v), Ok (map nilIndicator v))
  /\ TimeColumn.Append timeParse c (VTimePtrs w)
     = (appendRows timeParse c (map VTimePtr w), Ok (map nilIndicator w))
  /\ Time64Column.Append timeParse c64 (VInt64Ptrs v)
     = (appendRows64 timeParse c64 (map VInt64Ptr v), Ok (map nilIndicator v))
  /\ Time64Column.Append timeParse c64 (VTimePtrs w)
     = (appendRows64 timeParse c64 (map VTimePtr w), Ok (map nilIndicator w))
  /\ appendRows timeParse c [VInt64Ptr None; VTimePtr None]
     = TimeColumn.push (TimeColumn.push c zeroTime) zeroTime
  /\ appendRows64 timeParse c64 [VInt64Ptr None; VTimePtr None]
     = Time64Column.push (Time64Column.push c64 zeroTime) zeroTime.
Proof.
  repeat split.
  - cbn [TimeColumn.Append].
    rewrite (proj1 (Time_appendInt64Ptrs_rows timeParse v c)). reflexivity.
  - cbn [TimeColumn.Append].
    rewrite (proj1 (Time_appendTimePtrs_rows timeParse w c)). reflexivity.
  - cbn [Time64Column.Append].
    rewrite (proj1 (Time64_appendInt64Ptrs_rows timeParse v c64)). reflexivity.
  - cbn [Time64Column.Append].
    rewrite (proj1 (Time64_appendTimePtrs_rows timeParse w c64)). reflexivity.
Qed.

(** X8: a [nil] in a batch of [*sql.NullTime] makes [Append] panic
    ([AppendRow] reads [v.Valid] through the nil pointer); the rows of the
    wrappers before it have been appended by then.  [AppendRow] of a nil
    [*sql.NullTime] panics and leaves the column as it was. *)
Theorem X8_nil_NullTime_pointer_panics
    (timeParse : string -> string -> option Clock)
    (c : TimeColumn.Time) (c64 : Time64Column.Time64)
    (pre : list NullTime) (post : list (option NullTime)) :
  TimeColumn.Append timeParse c (VNullTimePtrs (map Some pre ++ None :: post))
  = (appendRows timeParse c (map VNullTime pre), Panic)
  /\ TimeColumn.AppendRow timeParse c (VNullTimePtr None) = (c, Panic)
  /\ Time64Column.Append timeParse c64
       (VNullTimePtrs (map Some pre ++ None :: post))
     = (appendRows64 timeParse c64 (map VNullTime pre), Panic)
  /\ Time64Column.AppendRow timeParse c64 (VNullTimePtr None) = (c64, Panic).
Proof.
  repeat split.
  - apply Time_appendNullTimePtrs_nil.
  - apply Time64_appendNullTimePtrs_nil.
Qed.

(** ** What [ScanRow] can return *)

Lemma secondOfDay_range (t : Instant) : 0 <= secondOfDay t < 86400.
Proof. unfold secondOfDay. apply Z.mod_pos_bound. lia. Qed.

(** X9: an integer that [ScanRow] stores through [*int64] or [**int64]
    is never negative, whatever the row holds and whatever the timezone
    of the column: it lies in [0, 86400) for [Time] and in [0, 86400000)
    for [Time64]. *)
Theorem X9_scanned_integer_range
    (c : TimeColumn.Time) (c64 : Time64Column.Time64)
    (ptr ptr64 : bool) (i i64 n n64 : Z) :
  TimeColumn.ScanRow c (if ptr then DInt64Ptr else DInt64) i
  = Ok (if ptr then WInt64Ptr n else WInt64 n) ->
  Time64Column.ScanRow c64 (if ptr64 then DInt64Ptr else DInt64) i64
  = Ok (if ptr64 then WInt64Ptr n64 else WInt64 n64) ->
  0 <= n < 86400 /\ 0 <= n64 < 86400000.
Proof.
  intros H H64. split.
  - assert (Hn : exists t, n = TimeColumn.secondsOf t).
    { destruct ptr; unfold TimeColumn.ScanRow, TimeColumn.withRow in H;
        destruct (TimeColumn.row c i) as [t |]; inversion H; eexists; reflexivity. }
    destruct Hn as [t ->]. rewrite secondsOf_secondOfDay. apply secondOfDay_range.
  - assert (Hn : exists t, Time64Column.row c64 i64 = Some t
                           /\ n64 = Time64Column.millisecondsOf t).
    { destruct ptr64; unfold Time64Column.ScanRow, Time64Column.withRow in H64;
        destruct (Time64Column.row c64 i64) as [t |]; inversion H64;
        eexists; split; reflexivity. }
    destruct Hn as (t & Hrow & ->).
    pose proof (nanos_row64 _ _ _ Hrow) as Hnanos.
    rewrite millisecondsOf_nanoOfDay by assumption.
    pose proof (secondOfDay_range t) as Hs.
    unfold nanoOfDay. Z.to_euclidean_division_equations; lia.
Qed.

Lemma X9_scanned_integer_range_witness :
  0 <= 86399 < 86400 /\ 0 <= 86399999 < 86400000.
Proof.
  apply (X9_scanned_integer_range
           (fst (TimeColumn.AppendRow GoTime.Parse Fixtures.emptyTime (VInt64 (-1))))
           (fst (Time64Column.AppendRow GoTime.Parse (Fixtures.time64Of 3)
                   (VInt64 (-1))))
           false true 0 0 86399 86399999); vm_compute; reflexivity.
Defined.

(** ** Integers beyond one day *)

Lemma nanoOfDay_millisecondsToTime_any (milliseconds : Z) :
  nanoOfDay (Time64Column.millisecondsToTime milliseconds UTC)
  = (milliseconds mod 86400000) * 1000000.
Proof.
  unfold nanoOfDay, secondOfDay, Time64Column.millisecondsToTime, Date1970; simpl.
  Z.to_euclidean_division_equations; lia.
Qed.

Lemma Time64_scan_after_append_any
    (timeParse : string -> string -> option Clock)
    (c : Time64Column.Time64) (milliseconds : Z) :
  zoneIsUTC (Time64Column.timezone c) ->
  3 <= Precision (Time64Column.col c) <= 9 ->
  appendThenScan64 timeParse c (VInt64 milliseconds) DInt64
  = Ok (WInt64 (milliseconds mod 86400000)).
Proof.
  intros Hz Hp.
  assert (Hm : 0 <= milliseconds mod 86400000 < 86400000)
    by (apply Z.mod_pos_bound; lia).
  unfold appendThenScan64; simpl.
  unfold Time64Column.withRow, Time64Column.row, Time64Column.Rows; simpl.
  rewrite ColTime64_Row_Append.
  set (p := Precision (Time64Column.col c)) in *.
  set (tick := toTick64 p (Time64Column.millisecondsToTime milliseconds UTC)).
  assert (Htick : tick * tickNanos p = (milliseconds mod 86400000) * 1000000).
  { unfold tick, toTick64. rewrite nanoOfDay_millisecondsToTime_any.
    apply tickNanos_divides_millisecond; assumption. }
  assert (Hday : nanoOfDay (fromTick64 p tick)
                 = (milliseconds mod 86400000) * 1000000).
  { rewrite nanoOfDay_fromTick64; [assumption | lia]. }
  assert (Hres : forall t : Instant,
             0 <= nanos t < 1000000000 ->
             nanoOfDay t = (milliseconds mod 86400000) * 1000000 ->
             Time64Column.millisecondsOf t = milliseconds mod 86400000).
  { intros t Hn Ht. rewrite millisecondsOf_nanoOfDay, Ht by assumption.
    apply Z.div_mul; lia. }
  destruct (Time64Column.timezone c) as [tz |]; simpl in Hz.
  - rewrite Hres; [reflexivity | apply nanos_fromTick64 |].
    rewrite nanoOfDay_In by (assumption || reflexivity). assumption.
  - rewrite Hres; [reflexivity | apply nanos_fromTick64 | assumption].
Qed.

(** X10: an integer beyond one day, or negative, appended to a column
    read in UTC comes back reduced to one day: for [t] within 2^62 of
    zero, [t mod 86400] (the non-negative remainder) on [Time]; for every
    64-bit [ms], [ms mod 86400000] on a [Time64] column of precision 3 to
    9.  So 90000 is read back as 3600, and on [Time64] the value -1 as
    86399999. *)
Theorem X10_integers_wrap_into_one_day
    (timeParse : string -> string -> option Clock)
    (c : TimeColumn.Time) (c64 : Time64Column.Time64) (t ms : Z) :
  zoneIsUTC (TimeColumn.timezone c) ->
  zoneIsUTC (Time64Column.timezone c64) ->
  3 <= Precision (Time64Column.col c64) <= 9 ->
  - 2 ^ 62 <= t < 2 ^ 62 ->
  - 2 ^ 63 <= ms < 2 ^ 63 ->
  appendThenScan timeParse c (VInt64 t) DInt64 = Ok (WInt64 (t mod 86400))
  /\ appendThenScan64 timeParse c64 (VInt64 ms) DInt64
     = Ok (WInt64 (ms mod 86400000)).
Proof.
  intros Hz Hz64 Hp Ht Hms. split.
  - apply Time_scan_after_append_int64; assumption.
  - apply Time64_scan_after_append_any; assumption.
Qed.

Lemma X10_integers_wrap_into_one_day_witness :
  appendThenScan GoTime.Parse Fixtures.emptyTime (VInt64 90000) DInt64
  = Ok (WInt64 (90000 mod 86400))
  /\ appendThenScan64 GoTime.Parse (Fixtures.time64Of 3) (VInt64 (-1)) DInt64
     = Ok (WInt64 ((-1) mod 86400000)).
Proof.
  apply (X10_integers_wrap_into_one_day GoTime.Parse Fixtures.emptyTime
           (Fixtures.time64Of 3) 90000 (-1)); simpl; try exact I; lia.
Defined.

(** ** Strings of the form HH:MM:SS *)

Lemma digitChar_isDigit (d : Z) :
  0 <= d <= 9 ->
  Strconv.isDigit (digitChar d) = true /\ Strconv.digitVal (digitChar d) = d.
Proof.
  intros H.
  assert (Hc : d = 0 \/ d = 1 \/ d = 2 \/ d = 3 \/ d = 4 \/ d = 5 \/ d = 6
               \/ d = 7 \/ d = 8 \/ d = 9) by lia.
  destruct Hc as [-> | [-> | [-> | [-> | [-> | [-> | [-> | [-> | [-> | ->]]]]]]]]];
    split; reflexivity.
Qed.

Lemma getnum_pad2 (n : Z) (rest : string) (fixed : bool) :
  0 <= n < 100 ->
  getnum (pad2 n ++ rest) fixed = Some (n, rest).
Proof.
  intros H.
  assert (H1 : 0 <= n / 10 <= 9) by (Z.to_euclidean_division_equations; lia).
  assert (H2 : 0 <= n mod 10 <= 9) by (Z.to_euclidean_division_equations; lia).
  destruct (digitChar_isDigit _ H1) as [Ha Hav].
  destruct (digitChar_isDigit _ H2) as [Hb Hbv].
  unfold pad2, getnum. cbn [append].
  rewrite Ha, Hb, Hav, Hbv.
  f_equal. f_equal. Z.to_euclidean_division_equations; lia.
Qed.

(** The first layout reads a string HH:MM:SS as the clock it spells. *)
Lemma Parse_clockString (h m s : Z) :
  0 <= h < 24 -> 0 <= m < 60 -> 0 <= s < 60 ->
  GoTime.Parse "15:04:05" (clockString h m s) = Some (mkClock h m s 0).
Proof.
  intros Hh Hm Hs.
  unfold GoTime.Parse, clockString.
  change (layoutChunks "15:04:05")
    with (Some [StdHour; Lit ":"; StdZeroMinute; Lit ":"; StdZeroSecond]).
  cbn [parseChunks].
  rewrite getnum_pad2 by lia.
  replace (h <? 24) with true by (symmetry; apply Z.ltb_lt; lia).
  cbn [append skip skipChar Ascii.eqb Bool.eqb].
  rewrite getnum_pad2 by lia.
  replace (m <? 60) with true by (symmetry; apply Z.ltb_lt; lia).
  cbn [append skip skipChar Ascii.eqb Bool.eqb].
  change (pad2 s) with (pad2 s ++ "").
  rewrite getnum_pad2 by lia.
  replace (s <? 60) with true by (symmetry; apply Z.ltb_lt; lia).
  reflexivity.
Qed.

Lemma Format_clockString (t : Instant) :
  Format_15_04_05 t = clockString (Hour t) (Minute t) (Second t).
Proof. reflexivity. Qed.

Lemma clock_of_secondOfDay (t : Instant) (h m s : Z) :
  0 <= h < 24 -> 0 <= m < 60 -> 0 <= s < 60 ->
  secondOfDay t = h * 3600 + m * 60 + s ->
  Hour t = h /\ Minute t = m /\ Second t = s.
Proof.
  intros Hh Hm Hs Ht. unfold Hour, Minute, Second. rewrite Ht.
  repeat split; Z.to_euclidean_division_equations; lia.
Qed.

(** X11: every string HH:MM:SS with HH below 24 and MM and SS below 60,
    written to a [Time] column read in UTC, is read back as the same
    string, and as the integer [HH * 3600 + MM * 60 + SS]. *)
Theorem X11_clock_string_round_trip
    (c : TimeColumn.Time) (h m s : Z) :
  zoneIsUTC (TimeColumn.timezone c) ->
  0 <= h < 24 -> 0 <= m < 60 -> 0 <= s < 60 ->
  appendThenScan GoTime.Parse c (VString (clockString h m s)) DString
  = Ok (WString (clockString h m s))
  /\ appendThenScan GoTime.Parse c (VString (clockString h m s)) DInt64
     = Ok (WInt64 (h * 3600 + m * 60 + s)).
Proof.
  intros Hz Hh Hm Hs.
  assert (Hparse : TimeColumn.parseTime GoTime.Parse c (clockString h m s)
                   = Ok (Date1970 h m s 0 (TimeColumn.columnZone c))).
  { unfold TimeColumn.parseTime, TimeColumn.formats.
    cbn [TimeColumn.tryFormats]. rewrite Parse_clockString by assumption.
    reflexivity. }
  assert (Hoff : zoneOffset (TimeColumn.columnZone c) = 0).
  { unfold TimeColumn.columnZone. destruct (TimeColumn.timezone c);
      [exact Hz | reflexivity]. }
  assert (Htick : toTick (Date1970 h m s 0 (TimeColumn.columnZone c))
                  = h * 3600 + m * 60 + s).
  { unfold toTick, secondOfDay, Date1970; simpl. rewrite Hoff.
    Z.to_euclidean_division_equations; lia. }
  assert (Hrow : forall t : Instant,
            TimeColumn.row
              (TimeColumn.push c (Date1970 h m s 0 (TimeColumn.columnZone c)))
              (TimeColumn.Rows c) = Some t ->
            secondOfDay t = h * 3600 + m * 60 + s).
  { intros t. unfold TimeColumn.row, TimeColumn.Rows; simpl.
    rewrite ColTime_Row_Append, Htick.
    destruct (TimeColumn.timezone c) as [tz |]; simpl in Hz;
      intros H; inversion H; subst.
    - rewrite secondOfDay_In by (assumption || reflexivity).
      apply secondOfDay_fromTick; lia.
    - apply secondOfDay_fromTick; lia. }
  unfold appendThenScan. cbn [TimeColumn.AppendRow]. rewrite Hparse.
  unfold TimeColumn.ScanRow, TimeColumn.withRow.
  destruct (TimeColumn.row _ (TimeColumn.Rows c)) as [t |] eqn:Ht.
  - specialize (Hrow t eq_refl).
    destruct (clock_of_secondOfDay t h m s Hh Hm Hs Hrow) as (H1 & H2 & H3).
    split.
    + rewrite Format_clockString, H1, H2, H3. reflexivity.
    + rewrite secondsOf_secondOfDay, Hrow. reflexivity.
  - exfalso. revert Ht. unfold TimeColumn.row, TimeColumn.Rows; simpl.
    rewrite ColTime_Row_Append.
    destruct (TimeColumn.timezone c); discriminate.
Qed.

Lemma X11_clock_string_round_trip_witness :
  appendThenScan GoTime.Parse Fixtures.emptyTime
    (VString (clockString 23 59 59)) DString
  = Ok (WString (clockString 23 59 59))
  /\ appendThenScan GoTime.Parse Fixtures.emptyTime
       (VString (clockString 23 59 59)) DInt64
     = Ok (WInt64 (23 * 3600 + 59 * 60 + 59)).
Proof.
  apply (X11_clock_string_round_trip Fixtures.emptyTime 23 59 59);
    simpl; try exact I; lia.
Defined.

(** ** Strings that are integers *)

Lemma isDigit_not_colon (c : ascii) :
  Strconv.isDigit c = true -> Ascii.eqb c ":" = false.
Proof.
  intros H. destruct (Ascii.eqb_spec c ":") as [-> | Hne];
    [discriminate | reflexivity].
Qed.

Lemma digits_cons (acc : Z) (c : ascii) (s : string) (n : Z) :
  Strconv.digits acc (String c s) = Some n ->
  Strconv.isDigit c = true
  /\ Strconv.digits (10 * acc + Strconv.digitVal c) s = Some n.
Proof.
  simpl. destruct (Strconv.isDigit c); [intros H; split; [reflexivity | exact H]
                                       | discriminate].
Qed.

(** After the hour has been read from a string of digits, a digit or the
    end of the string follows, never the colon of the layout. *)
Lemma getnum_then_colon (acc : Z) (a : ascii) (r : string) (n : Z) :
  Strconv.digits acc (String a r) = Some n ->
  exists h rest,
    getnum (String a r) false = Some (h, rest) /\ skipChar rest ":" = None.
Proof.
  intros H. apply digits_cons in H. destruct H as [Ha H].
  unfold getnum. rewrite Ha.
  destruct r as [| b r'].
  - eexists; eexists; split; reflexivity.
  - apply digits_cons in H. destruct H as [Hb H]. rewrite Hb.
    eexists; eexists; split; [reflexivity |].
    destruct r' as [| d r'']; [reflexivity |].
    apply digits_cons in H. destruct H as [Hd _].
    unfold skipChar. cbn [Ascii.eqb Bool.eqb]. cbv iota.
    rewrite (isDigit_not_colon d Hd). reflexivity.
Qed.

Lemma hour_colon_fails (value : string) :
  getnum value false = None
  \/ (exists h rest,
        getnum value false = Some (h, rest) /\ skipChar rest ":" = None) ->
  forall (l : list Chunk) (st : ParseState),
    parseChunks (StdHour :: Lit ":" :: l) value st = None
    /\ parseChunks (StdHour12 :: Lit ":" :: l) value st = None.
Proof.
  intros [H | (h & rest & H & Hskip)] l st; cbn [parseChunks]; rewrite H.
  - split; reflexivity.
  - cbn [skip]. rewrite Hskip.
    split; [destruct (h <? 24) | destruct (h <=? 12)]; reflexivity.
Qed.

Lemma ParseInt_digit_head (a : ascii) (r : string) (bitSize n : Z) :
  Strconv.isDigit a = true ->
  Strconv.ParseInt (String a r) bitSize = Ok n ->
  exists m, Strconv.digits 0 (String a r) = Some m.
Proof.
  intros Ha H.
  destruct a as [b0 b1 b2 b3 b4 b5 b6 b7].
  destruct b0, b1, b2, b3, b4, b5, b6, b7;
    try (vm_compute in Ha; discriminate Ha);
    unfold Strconv.ParseInt in H; cbv iota beta in H;
    unfold Strconv.unsignedDigits in H;
    match type of H with
    | context [Strconv.digits 0 ?s] =>
        destruct (Strconv.digits 0 s) as [m |] eqn:Hd;
        [exists m; reflexivity | discriminate H]
    end.
Qed.

(** No layout of either list reads a string that [strconv.ParseInt]
    accepts: each layout begins with an hour followed by a colon. *)
Lemma Parse_integer_string (value : string) (n : Z) :
  Strconv.ParseInt value 64 = Ok n ->
  forall f, List.In f Time64Column.formats -> GoTime.Parse f value = None.
Proof.
  intros Hint.
  assert (Hshape : getnum value false = None
                   \/ (exists h rest,
                         getnum value false = Some (h, rest)
                         /\ skipChar rest ":" = None)).
  { destruct value as [| a r]; [left; reflexivity |].
    destruct (Strconv.isDigit a) eqn:Ha.
    - right. destruct (ParseInt_digit_head a r 64 n Ha Hint) as [m Hm].
      eapply getnum_then_colon; eassumption.
    - left. unfold getnum. rewrite Ha. reflexivity. }
  intros f Hf. unfold Time64Column.formats in Hf. simpl in Hf.
  repeat (destruct Hf as [<- | Hf];
          [unfold GoTime.Parse;
           match goal with
           | |- context [layoutChunks ?g] =>
               let r := eval vm_compute in (layoutChunks g) in
               change (layoutChunks g) with r
           end;
           cbv iota beta;
           apply (hour_colon_fails value Hshape) |]).
  contradiction.
Qed.

Lemma Time_tryFormats_none (timeParse : string -> string -> option Clock)
    (c : TimeColumn.Time) (value : string) (fs : list string) :
  (forall f, List.In f fs -> timeParse f value = None) ->
  TimeColumn.tryFormats timeParse c fs value = None.
Proof.
  induction fs as [| f fs IH]; intros H; simpl; [reflexivity |].
  rewrite (H f) by (left; reflexivity).
  apply IH. intros g Hg. apply H. right; exact Hg.
Qed.

Lemma Time64_tryFormats_none (timeParse : string -> string -> option Clock)
    (c : Time64Column.Time64) (value : string) (fs : list string) :
  (forall f, List.In f fs -> timeParse f value = None) ->
  Time64Column.tryFormats timeParse c fs value = None.
Proof.
  induction fs as [| f fs IH]; intros H; simpl; [reflexivity |].
  rewrite (H f) by (left; reflexivity).
  apply IH. intros g Hg. apply H. right; exact Hg.
Qed.

(** X12: a string that is a signed decimal integer within 64 bits is
    never taken for a clock time by one of the layouts: written to a
    [Time] column it is that many seconds since midnight, written to a
    [Time64] column that many milliseconds, in the zone of the column. *)
Theorem X12_integer_strings_are_ticks
    (c : TimeColumn.Time) (c64 : Time64Column.Time64) (value : string) (n : Z) :
  Strconv.ParseInt value 64 = Ok n ->
  TimeColumn.parseTime GoTime.Parse c value
  = Ok (TimeColumn.secondsToTime n (TimeColumn.columnZone c))
  /\ Time64Column.parseTime GoTime.Parse c64 value
     = Ok (Time64Column.millisecondsToTime n (Time64Column.columnZone c64)).
Proof.
  intros Hint.
  pose proof (Parse_integer_string value n Hint) as Hnone.
  split.
  - unfold TimeColumn.parseTime.
    rewrite Time_tryFormats_none, Hint; [reflexivity |].
    intros f Hf. apply Hnone.
    unfold TimeColumn.formats in Hf. unfold Time64Column.formats.
    simpl in *. intuition.
  - unfold Time64Column.parseTime.
    rewrite Time64_tryFormats_none, Hint; [reflexivity | exact Hnone].
Qed.

Lemma X12_integer_strings_are_ticks_witness :
  TimeColumn.parseTime GoTime.Parse Fixtures.emptyTime "-3600"
  = Ok (TimeColumn.secondsToTime (-3600) (TimeColumn.columnZone Fixtures.emptyTime))
  /\ Time64Column.parseTime GoTime.Parse Fixtures.emptyTime64 "-3600"
     = Ok (Time64Column.millisecondsToTime (-3600)
             (Time64Column.columnZone Fixtures.emptyTime64)).
Proof.
  apply (X12_integer_strings_are_ticks Fixtures.emptyTime Fixtures.emptyTime64
           "-3600" (-3600)); reflexivity.
Defined.

(** ** Strings with milliseconds on a [Time64] column *)

Lemma takeFraction_pad3 (ms : Z) :
  0 <= ms < 1000 ->
  takeFraction ("." ++ pad3 ms) = Some (ms * 1000000, EmptyString).
Proof.
  intros H.
  assert (H1 : 0 <= ms / 100 <= 9) by (Z.to_euclidean_division_equations; lia).
  assert (H2 : 0 <= (ms / 10) mod 10 <= 9)
    by (Z.to_euclidean_division_equations; lia).
  assert (H3 : 0 <= ms mod 10 <= 9) by (Z.to_euclidean_division_equations; lia).
  destruct (digitChar_isDigit _ H1) as [Ha Hav].
  destruct (digitChar_isDigit _ H2) as [Hb Hbv].
  destruct (digitChar_isDigit _ H3) as [Hc Hcv].
  unfold takeFraction, pad3, isDigitAt, parseNanoseconds.
  cbn [append commaOrPeriod Ascii.eqb Bool.eqb orb andb String.get spanDigits
       substring String.length Strconv.digits].
  rewrite Ha. cbn [andb spanDigits]. rewrite Hb, Hc.
  cbn [substring String.length Strconv.digits]. rewrite Ha, Hb, Hc, Hav, Hbv, Hcv.
  cbn [Nat.sub scaleUp]. f_equal. f_equal.
  Z.to_euclidean_division_equations; lia.
Qed.

Lemma Parse_clockStringMillis (h m s ms : Z) :
  0 <= h < 24 -> 0 <= m < 60 -> 0 <= s < 60 -> 0 <= ms < 1000 ->
  GoTime.Parse "15:04:05" (clockStringMillis h m s ms)
  = Some (mkClock h m s (ms * 1000000)).
Proof.
  intros Hh Hm Hs Hms.
  unfold GoTime.Parse, clockStringMillis.
  change (layoutChunks "15:04:05")
    with (Some [StdHour; Lit ":"; StdZeroMinute; Lit ":"; StdZeroSecond]).
  cbn [parseChunks].
  rewrite getnum_pad2 by lia.
  replace (h <? 24) with true by (symmetry; apply Z.ltb_lt; lia).
  cbn [append skip skipChar Ascii.eqb Bool.eqb].
  rewrite getnum_pad2 by lia.
  replace (m <? 60) with true by (symmetry; apply Z.ltb_lt; lia).
  cbn [append skip skipChar Ascii.eqb Bool.eqb].
  rewrite getnum_pad2 by lia.
  replace (s <? 60) with true by (symmetry; apply Z.ltb_lt; lia).
  cbn [nextStdIsFraction filter].
  pose proof (takeFraction_pad3 ms Hms) as Hf. cbn [append] in Hf.
  rewrite Hf. reflexivity.
Qed.

(** A pushed instant that lies a whole number of milliseconds after
    midnight is scanned back as that number, on a column of precision 3
    to 9 read in UTC. *)
Lemma Time64_scan_after_push (c : Time64Column.Time64) (v : Instant) (x : Z) :
  zoneIsUTC (Time64Column.timezone c) ->
  3 <= Precision (Time64Column.col c) <= 9 ->
  0 <= x < 86400000 ->
  nanoOfDay v = x * 1000000 ->
  Time64Column.ScanRow (Time64Column.push c v) DInt64 (Time64Column.Rows c)
  = Ok (WInt64 x).
Proof.
  intros Hz Hp Hx Hv.
  unfold Time64Column.ScanRow, Time64Column.withRow, Time64Column.row,
    Time64Column.Rows; simpl.
  rewrite ColTime64_Row_Append.
  set (p := Precision (Time64Column.col c)) in *.
  set (tick := toTick64 p v).
  assert (Htick : tick * tickNanos p = x * 1000000).
  { unfold tick, toTick64. rewrite Hv.
    apply tickNanos_divides_millisecond; assumption. }
  assert (Hday : nanoOfDay (fromTick64 p tick) = x * 1000000).
  { rewrite nanoOfDay_fromTick64; [assumption | lia]. }
  assert (Hres : forall t : Instant,
             0 <= nanos t < 1000000000 ->
             nanoOfDay t = x * 1000000 ->
             Time64Column.millisecondsOf t = x).
  { intros t Hn Ht. rewrite millisecondsOf_nanoOfDay, Ht by assumption.
    apply Z.div_mul; lia. }
  destruct (Time64Column.timezone c) as [tz |]; simpl in Hz.
  - rewrite Hres; [reflexivity | apply nanos_fromTick64 |].
    rewrite nanoOfDay_In by (assumption || reflexivity). assumption.
  - rewrite Hres; [reflexivity | apply nanos_fromTick64 | assumption].
Qed.

(** X13: every string HH:MM:SS.mmm (HH below 24, MM and SS below 60, three
    digits of milliseconds) written to a [Time64] column of precision 3 to
    9 read in UTC is read back, as an integer, as the milliseconds since
    midnight it spells: [(HH * 3600 + MM * 60 + SS) * 1000 + mmm]. *)
Theorem X13_millisecond_string_to_integer
    (c : Time64Column.Time64) (h m s ms : Z) :
  zoneIsUTC (Time64Column.timezone c) ->
  3 <= Precision (Time64Column.col c) <= 9 ->
  0 <= h < 24 -> 0 <= m < 60 -> 0 <= s < 60 -> 0 <= ms < 1000 ->
  appendThenScan64 GoTime.Parse c (VString (clockStringMillis h m s ms)) DInt64
  = Ok (WInt64 ((h * 3600 + m * 60 + s) * 1000 + ms)).
Proof.
  intros Hz Hp Hh Hm Hs Hms.
  assert (Hparse : Time64Column.parseTime GoTime.Parse c (clockStringMillis h m s ms)
                   = Ok (Date1970 h m s (ms * 1000000)
                           (Time64Column.columnZone c))).
  { unfold Time64Column.parseTime, Time64Column.formats.
    cbn [Time64Column.tryFormats]. rewrite Parse_clockStringMillis by assumption.
    reflexivity. }
  assert (Hoff : zoneOffset (Time64Column.columnZone c) = 0).
  { unfold Time64Column.columnZone. destruct (Time64Column.timezone c);
      [exact Hz | reflexivity]. }
  unfold appendThenScan64. cbn [Time64Column.AppendRow]. rewrite Hparse.
  apply Time64_scan_after_push; try assumption; [lia |].
  unfold nanoOfDay, secondOfDay, Date1970; simpl. rewrite Hoff.
  Z.to_euclidean_division_equations; lia.
Qed.

Lemma X13_millisecond_string_to_integer_witness :
  appendThenScan64 GoTime.Parse (Fixtures.time64Of 3)
    (VString (clockStringMillis 12 30 45 123)) DInt64
  = Ok (WInt64 ((12 * 3600 + 30 * 60 + 45) * 1000 + 123)).
Proof.
  apply (X13_millisecond_string_to_integer (Fixtures.time64Of 3) 12 30 45 123);
    simpl; try exact I; lia.
Defined.
